(** * Greip Go client: request construction, validation and envelope decoding

    A shallow embedding of [helpers.go] and [greip.go].  Go strings are byte
    strings ([string]), [map[string]interface{}] is a [gmap string value],
    a slice is a list together with its nil-ness, an [error] is the message
    it carries, and a function that may panic runs in a small monad that
    also records the HTTP requests handed to the client. *)

From Stdlib Require Import ZArith NArith Ascii String List Bool DecimalString.
From Stdlib Require Import DecimalPos DecimalZ.
From stdpp Require Import base option list strings gmap fin_maps.

Local Open Scope string_scope.
Local Open Scope Z_scope.
Set Warnings "-register-all".

(** ** Go strings *)

(** [strings.Join(elems, sep)] *)
Fixpoint strings_Join (elems : list string) (sep : string) : string :=
  match elems with
  | [] => ""
  | [e] => e
  | e :: rest => e ++ sep ++ strings_Join rest sep
  end.

Fixpoint map_bytes (f : ascii -> ascii) (s : string) : string :=
  match s with
  | EmptyString => EmptyString
  | String c rest => String (f c) (map_bytes f rest)
  end.

(** [c < utf8.RuneSelf] on every byte of the string. *)
Fixpoint isASCII (s : string) : bool :=
  match s with
  | EmptyString => true
  | String c rest => (N_of_ascii c <? 128)%N && isASCII rest
  end.

Definition upper_byte (c : ascii) : ascii :=
  let n := N_of_ascii c in
  if ((97 <=? n) && (n <=? 122))%N then ascii_of_N (n - 32) else c.

Definition lower_byte (c : ascii) : ascii :=
  let n := N_of_ascii c in
  if ((65 <=? n) && (n <=? 90))%N then ascii_of_N (n + 32) else c.

(** [strings.ToUpper] and [strings.ToLower]: the byte loop for ASCII input,
    the rune map otherwise.  Case mapping of runes outside ASCII follows the
    Unicode tables, which are not part of the repository: the rune map is
    an argument. *)
Definition strings_ToUpper (unicode_ToUpper : string -> string) (s : string) : string :=
  if isASCII s then map_bytes upper_byte s else unicode_ToUpper s.

Definition strings_ToLower (unicode_ToLower : string -> string) (s : string) : string :=
  if isASCII s then map_bytes lower_byte s else unicode_ToLower s.

(** [fmt.Sprintf("%d", n)] *)
Definition fmt_d (n : Z) : string := NilZero.string_of_int (Z.to_int n).

(** ** Errors

    Every error of the package is built by [errors.New] or [fmt.Errorf]; an
    [error] is the message.  The names are those of the error taxonomy. *)

Definition error := string.

Definition MissingParameter (name : string) : error :=
  "you must provide the `" ++ name ++ "` parameter".
Definition InvalidParameter (param : string) : error :=
  "invalid parameter: " ++ param.
Definition UnsupportedLanguage (lang : string) : error :=
  "invalid language: " ++ lang.
Definition TransportError (statusCode : Z) : error :=
  "HTTP request failed with status code: " ++ fmt_d statusCode.
Definition APIError (description : string) : error :=
  "API error: " ++ description.
Definition MalformedEnvelope : error :=
  "invalid response format: missing data field".

(** ** Validators (helpers.go) *)

(** [contains(slice, item)] *)
Fixpoint contains (slice : list string) (item : string) : bool :=
  match slice with
  | [] => false
  | v :: rest => if String.eqb v item then true else contains rest item
  end.

(** [validateParams(params, availableParams)]; [None] is the nil error. *)
Fixpoint validateParams (params availableParams : list string) : option error :=
  match params with
  | [] => None
  | param :: rest =>
      if negb (contains availableParams param)
      then Some (InvalidParameter param)
      else validateParams rest availableParams
  end.

Definition allowedLangs : list string :=
  ["EN"; "AR"; "DE"; "FR"; "ES"; "JA"; "ZH"; "RU"].

(** ** Data model *)

(** The dynamic values an [interface{}] holds in this package: what a JSON
    document decodes to, and what callers put in a payload.  A number keeps
    its literal; no function of the package inspects one. *)
Inductive value : Type :=
| VNil
| VBool (b : bool)
| VNum (literal : string)
| VStr (s : string)
| VArr (elems : list value)
| VMap (m : gmap string value).

(** A Go map or slice variable is nil ([None]) or holds a map or list. *)
Definition gomap : Type := option (gmap string value).
Definition slice (A : Type) : Type := option (list A).

(** Reading a nil map or ranging over a nil slice behaves as on an empty one. *)
Definition entries (m : gomap) : gmap string value := default ∅ m.
Definition elems {A : Type} (s : slice A) : list A := default [] s.

(** The value an [interface{}] holds after a map is assigned to it. *)
Definition to_value (m : gomap) : value :=
  match m with
  | None => VNil
  | Some m => VMap m
  end.

(** [url.Values] and [http.Header] are both [map[string][]string]. *)
Definition Values : Type := gmap string (list string).

(** [v.Add(key, value)] *)
Definition Values_Add (key val : string) (v : Values) : Values :=
  <[key := (default [] (v !! key) ++ [val])%list]> v.

(** [h.Set(key, value)]; both keys used here are in canonical form. *)
Definition Header_Set (key val : string) (h : Values) : Values :=
  <[key := [val]]> h.

(** The client handle (types.go). *)
Record Greip : Type := {
  token : string;
  BaseURL : string;
  test : bool;
}.

(** An outgoing request as handed to [client.Do]: [Query] is the value map
    whose encoding becomes [req.URL.RawQuery]. *)
Record Request : Type := {
  Method : string;
  URL : string;
  Header : Values;
  Query : Values;
  Body : option string;
}.

Record http_Response : Type := {
  StatusCode : Z;
  RespBody : string;
}.

(** The typed destinations the endpoint methods decode into. *)
Inductive target : Type :=
| ResponseLookup
| ResponseThreats
| ResponseBulkLookup
| ResponseCountry
| ResponseProfanity
| ResponseASN
| ResponseEmail
| ResponsePhone
| ResponseIBAN
| ResponsePayment.

(** What the package takes from outside: the Unicode case tables, the
    formatting of non-string values, URL parsing, the HTTP exchange, the JSON
    codec and the response shapes of types.go with their zero values.

    - [url_Parse u] is the outcome of [http.NewRequest(method, u, nil)] for
      the two methods used: the error, or the query already present in [u]
      (what [req.URL.Query()] returns).
    - [http_Do sent req] is the outcome of [client.Do(req)] after the
      requests [sent].
    - [json_Decode body] decodes into a [map[string]interface{}]; the nil
      map left by the document [null] reads as the empty map.
    - [json_Unmarshal t bytes dst] returns the destination as the decoder
      leaves it, possibly partly written, and the error. *)
Class Platform : Type := {
  unicode_ToUpper : string -> string;
  unicode_ToLower : string -> string;
  fmt_value : value -> string;
  url_Parse : string -> error + Values;
  http_Do : list Request -> Request -> error + http_Response;
  json_Decode : string -> error + gmap string value;
  json_Marshal : value -> error + string;
  Shape : target -> Type;
  zero : forall t, Shape t;
  json_Unmarshal : forall t, string -> Shape t -> Shape t * option error;
}.

(** ** Control flow: panics and the record of requests *)

Inductive panic : Type :=
| IndexOutOfRange (index len : nat)
| InterfaceConversion
| NilMapAssignment.

Inductive outcome (A : Type) : Type :=
| Returned (a : A)
| Panicked (p : panic).
Arguments Returned {A} a.
Arguments Panicked {A} p.

(** A computation reads the requests sent so far and yields its outcome
    with the requests it sent itself. *)
Definition Go (A : Type) : Type := list Request -> outcome A * list Request.

Definition ret {A : Type} (a : A) : Go A := fun _ => (Returned a, []).

Definition throw {A : Type} (p : panic) : Go A := fun _ => (Panicked p, []).

Definition bind {A B : Type} (m : Go A) (f : A -> Go B) : Go B :=
  fun sent =>
    match m sent with
    | (Returned a, out1) =>
        let (r, out2) := f a (sent ++ out1)%list in (r, (out1 ++ out2)%list)
    | (Panicked p, out1) => (Panicked p, out1)
    end.

Definition lift {A : Type} (o : outcome A) : Go A := fun _ => (o, []).

#[export] Instance Go_ret : MRet Go := @ret.
#[export] Instance Go_bind : MBind Go := fun A B f m => bind m f.

Definition run {A : Type} (m : Go A) (sent : list Request) : outcome A * list Request :=
  m sent.

(** ** Request executor and envelope decoder (helpers.go) *)

Section Executor.
Context {P : Platform}.

Definition ToUpper : string -> string := strings_ToUpper unicode_ToUpper.
Definition ToLower : string -> string := strings_ToLower unicode_ToLower.

(** [validateLang(lang)] *)
Definition validateLang (lang : string) : option error :=
  if negb (contains allowedLangs (ToUpper lang))
  then Some (UnsupportedLanguage lang)
  else None.

(** [fmt.Sprintf("%v", value)]: a string prints as itself. *)
Definition Sprint_v (v : value) : string :=
  match v with
  | VStr s => s
  | _ => fmt_value v
  end.

(** [client.Do(req)]: the one place where the network is reached. *)
Definition client_Do (req : Request) : Go (error + http_Response) :=
  fun sent => (Returned (http_Do sent req), [req]).

(** [payload[0]] *)
Definition index0 {A : Type} (payload : list A) : Go A :=
  match payload with
  | [] => throw (IndexOutOfRange 0 0)
  | p0 :: _ => ret p0
  end.

(** [payload["mode"] = "test"] on a map variable: assigning into a nil map
    panics. *)
Definition assign (m : gomap) (key : string) (v : value) : Go gomap :=
  match m with
  | None => throw NilMapAssignment
  | Some m => ret (Some (<[key := v]> m))
  end.

(** [status, ok := jsonResponse["status"].(string)] *)
Definition as_string (v : option value) : option string :=
  match v with
  | Some (VStr s) => Some s
  | _ => None
  end.

(** The test of helpers.go lines 61 and 129. *)
Definition error_status (jsonResponse : gmap string value) : bool :=
  match as_string (jsonResponse !! "status") with
  | Some status => String.eqb (ToLower status) "error"
  | None => false
  end.

(** The envelope decoder: lines 54-79 of [getRequest], repeated verbatim as
    lines 122-147 of [postRequest].  The result is the destination and the
    error returned; the single-valued assertion [.(string)] on the
    description panics when the field is absent or not a string. *)
Definition decodeEnvelope (t : target) (body : string) (responseType : Shape t)
  : outcome (Shape t * option error) :=
  match json_Decode body with
  | inl err => Returned (responseType, Some err)
  | inr jsonResponse =>
      if error_status jsonResponse then
        match as_string (jsonResponse !! "description") with
        | Some description => Returned (responseType, Some (APIError description))
        | None => Panicked InterfaceConversion
        end
      else
        match jsonResponse !! "data" with
        | Some data =>
            match json_Marshal data with
            | inl err => Returned (responseType, Some err)
            | inr dataBytes =>
                match json_Unmarshal t dataBytes responseType with
                | (written, Some err) => Returned (written, Some err)
                | (written, None) => Returned (written, None)
                end
            end
        | None => Returned (responseType, Some MalformedEnvelope)
        end
  end.

Definition non2xx (statusCode : Z) : bool :=
  (statusCode <? 200) || (statusCode >=? 300).

Definition headers (g : Greip) : Values :=
  Header_Set "Content-Type" "application/json"
    (Header_Set "Authorization" ("Bearer " ++ token g) ∅).

(** Lines 26-32: the test-mode flag written into the first payload map. *)
Definition mark_test (g : Greip) (payload : list gomap) : list gomap :=
  if test g && (0 <? length payload)%nat then
    match payload with
    | p0 :: rest => Some (<["mode" := VStr "test"]> (entries p0)) :: rest
    | [] => payload
    end
  else payload.

(** Lines 35-38: the loop adding every payload entry to the URL's query.
    A map has each key once, so the order of iteration does not show. *)
Definition add_query (urlQuery : Values) (p0 : gomap) : Values :=
  map_fold (fun key v query => Values_Add key (Sprint_v v) query) urlQuery (entries p0).

(** Lines 44-79 and 112-147: what the executor returns for the outcome of
    [client.Do]: the transport's error, the error for a status outside 2xx,
    or else the decoder's result. *)
Definition settle (r : error + http_Response) (t : target) (responseType : Shape t)
  : outcome (Shape t * option error) :=
  match r with
  | inl err => Returned (responseType, Some err)
  | inr resp =>
      if non2xx (StatusCode resp)
      then Returned (responseType, Some (TransportError (StatusCode resp)))
      else decodeEnvelope t (RespBody resp) responseType
  end.

(** Lines 41-43 and 109-111: [client.Do], then the settlement of what it
    gave. *)
Definition exchange (req : Request) (t : target) (responseType : Shape t)
  : Go (Shape t * option error) :=
  r ← client_Do req;
  lift (settle r t responseType).

Definition GET_request (g : Greip) (urlEndpoint : string) (query : Values) : Request :=
  {| Method := "GET"; URL := urlEndpoint; Header := headers g;
     Query := query; Body := None |}.

Definition POST_request (g : Greip) (urlEndpoint : string) (urlQuery : Values)
  (payloadBytes : string) : Request :=
  {| Method := "POST"; URL := urlEndpoint; Header := headers g;
     Query := urlQuery; Body := Some payloadBytes |}.

(** [func (g *Greip) getRequest(endpoint, responseType, payload ...)] *)
Definition getRequest (g : Greip) (endpoint : string) (t : target)
  (responseType : Shape t) (payload : list gomap) : Go (Shape t * option error) :=
  let urlEndpoint := BaseURL g ++ endpoint in
  match url_Parse urlEndpoint with
  | inl err => ret (responseType, Some err)
  | inr urlQuery =>
      let payload := mark_test g payload in
      p0 ← index0 payload;
      let query := add_query urlQuery p0 in
      exchange (GET_request g urlEndpoint query) t responseType
  end.

(** The payload [postRequest] marshals: [None] when the write of the mode
    into a nil map panics. *)
Definition marked (g : Greip) (payload : gomap) : option gomap :=
  if test g then
    match payload with
    | None => None
    | Some m => Some (Some (<["mode" := VStr "test"]> m))
    end
  else Some payload.

(** [func (g *Greip) postRequest(endpoint, responseType, payload)] *)
Definition postRequest (g : Greip) (endpoint : string) (t : target)
  (responseType : Shape t) (payload : gomap) : Go (Shape t * option error) :=
  let urlEndpoint := BaseURL g ++ endpoint in
  match url_Parse urlEndpoint with
  | inl err => ret (responseType, Some err)
  | inr urlQuery =>
      payload ← (if test g then assign payload "mode" (VStr "test") else ret payload);
      match json_Marshal (to_value payload) with
      | inl err => ret (responseType, Some err)
      | inr payloadBytes =>
          exchange (POST_request g urlEndpoint urlQuery payloadBytes) t responseType
      end
  end.

End Executor.

(** ** Endpoint methods (greip.go) *)

Definition availableGeoIPParams : list string :=
  ["location"; "security"; "timezone"; "currency"; "device"].
Definition availableCountryParams : list string :=
  ["language"; "flag"; "currency"; "timezone"].
Definition baseUrl : string := "https://greipapi.com/".

(** [NewGreip(apiToken, test...)] *)
Definition NewGreip (apiToken : string) (test : list bool) : Greip :=
  let testValue := match test with t0 :: _ => t0 | [] => false end in
  {| token := apiToken; BaseURL := baseUrl; test := testValue |}.

(** [if params == nil { params = []string{} }] *)
Definition or_empty (params : slice string) : slice string :=
  match params with
  | None => Some []
  | Some _ => params
  end.

(** [langValue := "EN"; if len(lang) > 0 { langValue = lang[0] }] *)
Definition langValue (lang : list string) : string :=
  match lang with
  | l0 :: _ => l0
  | [] => "EN"
  end.

(** The closing lines of every method:
    [if err != nil { return nil, err }; return &response, err]. *)
Definition handback {T : Type} (r : T * option error) : option T * option error :=
  match r with
  | (_, Some err) => (None, Some err)
  | (response, None) => (Some response, None)
  end.

Section Endpoints.
Context {P : Platform}.

(** In each method the local [query] of type [url.Values] is filled and
    never read; it is left out. *)

Definition Lookup (g : Greip) (ip : string) (params : slice string) (lang : list string)
  : Go (option (Shape ResponseLookup) * option error) :=
  let params := or_empty params in
  let langValue := langValue lang in
  let payload : gomap :=
    Some {[ "ip" := VStr ip;
            "params" := VStr (strings_Join (elems params) ",");
            "lang" := VStr (ToUpper langValue) ]} in
  if String.eqb ip "" then ret (None, Some "you must provide the `ip` parameter") else
  let params := or_empty params in
  match validateParams (elems params) availableGeoIPParams with
  | Some err => ret (None, Some err)
  | None =>
  match validateLang langValue with
  | Some err => ret (None, Some err)
  | None =>
      r ← getRequest g "IPLookup" ResponseLookup (zero ResponseLookup) [payload];
      ret (handback r)
  end end.

Definition Threats (g : Greip) (ip : string)
  : Go (option (Shape ResponseThreats) * option error) :=
  let payload : gomap := Some {[ "ip" := VStr ip ]} in
  if String.eqb ip "" then ret (None, Some "you must provide the `ip` parameter") else
  r ← getRequest g "threats" ResponseThreats (zero ResponseThreats) [payload];
  ret (handback r).

Definition BulkLookup (g : Greip) (ips params : slice string) (lang : list string)
  : Go (option (Shape ResponseBulkLookup) * option error) :=
  let params := or_empty params in
  let langValue := langValue lang in
  let payload : gomap :=
    Some {[ "ips" := VStr (strings_Join (elems ips) ",");
            "params" := VStr (strings_Join (elems params) ",");
            "lang" := VStr (ToUpper langValue) ]} in
  match ips with
  | None => ret (None, Some "you must provide the `ips` parameter")
  | Some _ =>
  let params := or_empty params in
  match validateParams (elems params) availableGeoIPParams with
  | Some err => ret (None, Some err)
  | None =>
  match validateLang langValue with
  | Some err => ret (None, Some err)
  | None =>
      r ← getRequest g "BulkLookup" ResponseBulkLookup (zero ResponseBulkLookup) [payload];
      ret (handback r)
  end end end.

Definition Country (g : Greip) (countryCode : string) (params : slice string)
  (lang : list string) : Go (option (Shape ResponseCountry) * option error) :=
  let params := or_empty params in
  let langValue := langValue lang in
  let payload : gomap :=
    Some {[ "CountryCode" := VStr countryCode;
            "params" := VStr (strings_Join (elems params) ",");
            "lang" := VStr (ToUpper langValue) ]} in
  if String.eqb countryCode ""
  then ret (None, Some "you must provide the `countryCode` parameter") else
  let params := or_empty params in
  match validateParams (elems params) availableCountryParams with
  | Some err => ret (None, Some err)
  | None =>
  match validateLang langValue with
  | Some err => ret (None, Some err)
  | None =>
      r ← getRequest g "Country" ResponseCountry (zero ResponseCountry) [payload];
      ret (handback r)
  end end.

Definition Profanity (g : Greip) (text : string)
  : Go (option (Shape ResponseProfanity) * option error) :=
  let payload : gomap := Some {[ "text" := VStr text ]} in
  if String.eqb text "" then ret (None, Some "you must provide the `text` parameter") else
  r ← getRequest g "badWords" ResponseProfanity (zero ResponseProfanity) [payload];
  ret (handback r).

Definition AsnLookup (g : Greip) (asn : string)
  : Go (option (Shape ResponseASN) * option error) :=
  let payload : gomap := Some {[ "asn" := VStr asn ]} in
  if String.eqb asn "" then ret (None, Some "you must provide the `asn` parameter") else
  r ← getRequest g "ASNLookup" ResponseASN (zero ResponseASN) [payload];
  ret (handback r).

Definition Email (g : Greip) (email : string)
  : Go (option (Shape ResponseEmail) * option error) :=
  let payload : gomap := Some {[ "email" := VStr email ]} in
  if String.eqb email "" then ret (None, Some "you must provide the `email` parameter") else
  r ← getRequest g "validateEmail" ResponseEmail (zero ResponseEmail) [payload];
  ret (handback r).

Definition Phone (g : Greip) (phone countryCode : string)
  : Go (option (Shape ResponsePhone) * option error) :=
  let payload : gomap :=
    Some {[ "phone" := VStr phone; "countryCode" := VStr countryCode ]} in
  if String.eqb phone "" then ret (None, Some "you must provide the `phone` parameter") else
  if String.eqb countryCode ""
  then ret (None, Some "you must provide the `countryCode` parameter") else
  r ← getRequest g "validatePhone" ResponsePhone (zero ResponsePhone) [payload];
  ret (handback r).

Definition IBAN (g : Greip) (iban : string)
  : Go (option (Shape ResponseIBAN) * option error) :=
  let payload : gomap := Some {[ "iban" := VStr iban ]} in
  if String.eqb iban "" then ret (None, Some "you must provide the `iban` parameter") else
  r ← getRequest g "validateIBAN" ResponseIBAN (zero ResponseIBAN) [payload];
  ret (handback r).

Definition Payment (g : Greip) (data : gomap)
  : Go (option (Shape ResponsePayment) * option error) :=
  match data with
  | None => ret (None, Some "you must provide the `data` parameter")
  | Some fields =>
      let payload : gomap := Some {[ "data" := VMap fields ]} in
      r ← postRequest g "paymentFraud" ResponsePayment (zero ResponsePayment) payload;
      ret (handback r)
  end.

(** A call of the public API: the method and its arguments. *)
Inductive call : Type :=
| CallLookup (ip : string) (params : slice string) (lang : list string)
| CallThreats (ip : string)
| CallBulkLookup (ips params : slice string) (lang : list string)
| CallCountry (countryCode : string) (params : slice string) (lang : list string)
| CallProfanity (text : string)
| CallAsnLookup (asn : string)
| CallEmail (email : string)
| CallPhone (phone countryCode : string)
| CallIBAN (iban : string)
| CallPayment (data : gomap).

Definition target_of (c : call) : target :=
  match c with
  | CallLookup _ _ _ => ResponseLookup
  | CallThreats _ => ResponseThreats
  | CallBulkLookup _ _ _ => ResponseBulkLookup
  | CallCountry _ _ _ => ResponseCountry
  | CallProfanity _ => ResponseProfanity
  | CallAsnLookup _ => ResponseASN
  | CallEmail _ => ResponseEmail
  | CallPhone _ _ => ResponsePhone
  | CallIBAN _ => ResponseIBAN
  | CallPayment _ => ResponsePayment
  end.

Definition invoke (g : Greip) (c : call)
  : Go (option (Shape (target_of c)) * option error) :=
  match c with
  | CallLookup ip params lang => Lookup g ip params lang
  | CallThreats ip => Threats g ip
  | CallBulkLookup ips params lang => BulkLookup g ips params lang
  | CallCountry countryCode params lang => Country g countryCode params lang
  | CallProfanity text => Profanity g text
  | CallAsnLookup asn => AsnLookup g asn
  | CallEmail email => Email g email
  | CallPhone phone countryCode => Phone g phone countryCode
  | CallIBAN iban => IBAN g iban
  | CallPayment data => Payment g data
  end.

End Endpoints.

(** ** Vocabulary for the statements *)

Section Vocabulary.
Context {P : Platform}.

(** The two ways a method reaches the network: [getRequest] with the list
    of payload maps it passes, [postRequest] with its one payload map, each
    followed by the closing lines. *)
Definition via_get (g : Greip) (c : call) (endpoint : string) (payload : list gomap)
  : Go (option (Shape (target_of c)) * option error) :=
  r ← getRequest g endpoint (target_of c) (zero (target_of c)) payload;
  ret (handback r).

Definition via_post (g : Greip) (c : call) (endpoint : string) (payload : gomap)
  : Go (option (Shape (target_of c)) * option error) :=
  r ← postRequest g endpoint (target_of c) (zero (target_of c)) payload;
  ret (handback r).

(** The request carries [key=val] among its query parameters. *)
Definition query_has (req : Request) (key val : string) : Prop :=
  exists vals, Query req !! key = Some vals /\ val ∈ vals.

(** The request body is the JSON encoding of a map holding [v] at [key]. *)
Definition body_has (req : Request) (key : string) (v : value) : Prop :=
  exists (m : gmap string value) bytes,
    Body req = Some bytes /\ json_Marshal (VMap m) = inr bytes /\ m !! key = Some v.

(** The request's query holds, for [key], what the URL already carried
    followed by [val] and nothing else. *)
Definition query_adds (req : Request) (key val : string) : Prop :=
  exists urlQuery,
    url_Parse (URL req) = inr urlQuery /\
    Query req !! key = Some (default [] (urlQuery !! key) ++ [val])%list.

(** [r] is what the JSON decoder wrote, without error, into a zero value of
    shape [t] from the [data] field of the 2xx response [resp], whose
    envelope carries no error status. *)
Definition decoded_from (t : target) (resp : http_Response) (r : Shape t) : Prop :=
  200 <= StatusCode resp < 300 /\
  exists env data bytes,
    json_Decode (RespBody resp) = inr env /\
    error_status env = false /\
    env !! "data" = Some data /\
    json_Marshal data = inr bytes /\
    json_Unmarshal t bytes (zero t) = (r, None).

(** The response is 2xx and its envelope has an error status but no string
    under [description]. *)
Definition error_without_description (resp : http_Response) : Prop :=
  200 <= StatusCode resp < 300 /\
  exists env,
    json_Decode (RespBody resp) = inr env /\
    error_status env = true /\
    as_string (env !! "description") = None.

Definition in_test_mode (req : Request) : Prop :=
  (Method req = "GET" /\ query_has req "mode" "test") \/
  (Method req = "POST" /\ body_has req "mode" (VStr "test")).

End Vocabulary.

(** The required inputs of a call, in the order the method checks them,
    each with whether the check refuses it: a string that is empty, a list
    or a map that is nil. *)
Definition is_nil {A : Type} (x : option A) : bool :=
  match x with
  | None => true
  | Some _ => false
  end.

Definition required (c : call) : list (string * bool) :=
  match c with
  | CallLookup ip _ _ => [("ip", String.eqb ip "")]
  | CallThreats ip => [("ip", String.eqb ip "")]
  | CallBulkLookup ips _ _ => [("ips", is_nil ips)]
  | CallCountry countryCode _ _ => [("countryCode", String.eqb countryCode "")]
  | CallProfanity text => [("text", String.eqb text "")]
  | CallAsnLookup asn => [("asn", String.eqb asn "")]
  | CallEmail email => [("email", String.eqb email "")]
  | CallPhone phone countryCode =>
      [("phone", String.eqb phone ""); ("countryCode", String.eqb countryCode "")]
  | CallIBAN iban => [("iban", String.eqb iban "")]
  | CallPayment data => [("data", is_nil data)]
  end.

Fixpoint first_missing (inputs : list (string * bool)) : option string :=
  match inputs with
  | [] => None
  | (name, refused) :: rest => if refused then Some name else first_missing rest
  end.

Definition uses_getRequest (c : call) : bool :=
  match c with
  | CallPayment _ => false
  | _ => true
  end.

(** ** A small concrete platform

    Used to run the methods on explicit inputs: the server always answers
    [reply], whose body decodes to [decoded]; a URL is refused when it holds
    a control byte, as [url.Parse] does, and has no query of its own; a
    response shape is the text of the data it was decoded from. *)
Fixpoint hasCTLByte (s : string) : bool :=
  match s with
  | EmptyString => false
  | String c rest =>
      let n := N_of_ascii c in
      (n <? 32)%N || (n =? 127)%N || hasCTLByte rest
  end.

Definition toyPlatform (reply : error + http_Response)
  (decoded : error + gmap string value) : Platform := {|
  unicode_ToUpper := fun s => s;
  unicode_ToLower := fun s => s;
  fmt_value := fun _ => "?";
  url_Parse := fun u =>
    if hasCTLByte u then inl "net/url: invalid control character in URL" else inr ∅;
  http_Do := fun _ _ => reply;
  json_Decode := fun _ => decoded;
  json_Marshal := fun v => inr (match v with VStr s => s | _ => "{}" end);
  Shape := fun _ => string;
  zero := fun _ => "";
  json_Unmarshal := fun _ bytes _ => (bytes, None);
|}.

Definition ok200 : error + http_Response :=
  inr {| StatusCode := 200; RespBody := "<body>" |}.

Definition status500 : error + http_Response :=
  inr {| StatusCode := 500; RespBody := "<body>" |}.

(** The server answers 200 with an envelope holding [data]. *)
Definition toy_success : Platform :=
  toyPlatform ok200 (inr {[ "status" := VStr "success"; "data" := VStr "<data>" ]}).

(** The server answers 200 with an envelope holding only a status that is
    no error status. *)
Definition toy_no_data : Platform :=
  toyPlatform ok200 (inr {[ "status" := VStr "success" ]}).

(** The server answers 200 with the envelope whose only field is the
    status [error]. *)
Definition toy_error_no_description : Platform :=
  toyPlatform ok200 (inr {[ "status" := VStr "error" ]}).

(** The server answers 200 with an error status in capitals and the
    description [bad token]. *)
Definition toy_api_error : Platform :=
  toyPlatform ok200
    (inr {[ "status" := VStr "ERROR"; "description" := VStr "bad token" ]}).

(** The server answers 500; its body would decode to a successful
    envelope. *)
Definition toy_500 : Platform :=
  toyPlatform status500 (inr {[ "status" := VStr "success"; "data" := VStr "<data>" ]}).

Definition live_handle : Greip := NewGreip "token" [].
Definition test_handle : Greip := NewGreip "token" [true].

(** ** Further vocabulary and platforms *)

(** The path segment each method passes to its executor. *)
Definition endpoint_of (c : call) : string :=
  match c with
  | CallLookup _ _ _ => "IPLookup"
  | CallThreats _ => "threats"
  | CallBulkLookup _ _ _ => "BulkLookup"
  | CallCountry _ _ _ => "Country"
  | CallProfanity _ => "badWords"
  | CallAsnLookup _ => "ASNLookup"
  | CallEmail _ => "validateEmail"
  | CallPhone _ _ => "validatePhone"
  | CallIBAN _ => "validateIBAN"
  | CallPayment _ => "paymentFraud"
  end.

(** The map [getRequest] ranges over: the first payload map after lines
    26-32. *)
Definition first_payload (g : Greip) (p0 : gomap) : gmap string value :=
  if test g then <["mode" := VStr "test"]> (entries p0) else entries p0.

(** What the validators of a method have accepted when it goes on to its
    executor: the allow-list of the optional parameters and the language
    table, for the three methods that take them. *)
Definition validated {P : Platform} (c : call) : Prop :=
  match c with
  | CallLookup _ params lang | CallBulkLookup _ params lang =>
      Forall (fun p => p ∈ availableGeoIPParams) (elems params) /\
      ToUpper (langValue lang) ∈ allowedLangs
  | CallCountry _ params lang =>
      Forall (fun p => p ∈ availableCountryParams) (elems params) /\
      ToUpper (langValue lang) ∈ allowedLangs
  | _ => True
  end.

(** The server cannot be reached. *)
Definition toy_unreachable : Platform :=
  toyPlatform (inl "dial tcp: i/o timeout") (inr ∅).

(** The server answers 200 with a body that is no JSON document. *)
Definition toy_bad_body : Platform :=
  toyPlatform ok200 (inl "unexpected end of JSON input").

(** As [toy_success], but the data does not fit the shape: the decoder
    leaves a partly written destination and an error. *)
Definition toy_shape_mismatch : Platform := {|
  unicode_ToUpper := fun s => s;
  unicode_ToLower := fun s => s;
  fmt_value := fun _ => "?";
  url_Parse := fun u =>
    if hasCTLByte u then inl "net/url: invalid control character in URL" else inr ∅;
  http_Do := fun _ _ => ok200;
  json_Decode := fun _ => inr {[ "status" := VStr "success"; "data" := VStr "<data>" ]};
  json_Marshal := fun v => inr (match v with VStr s => s | _ => "{}" end);
  Shape := fun _ => string;
  zero := fun _ => "";
  json_Unmarshal := fun _ _ _ => ("<partial>", Some "json: cannot unmarshal");
|}.

(** As [toy_success], but no value can be encoded. *)
Definition toy_unencodable : Platform := {|
  unicode_ToUpper := fun s => s;
  unicode_ToLower := fun s => s;
  fmt_value := fun _ => "?";
  url_Parse := fun u =>
    if hasCTLByte u then inl "net/url: invalid control character in URL" else inr ∅;
  http_Do := fun _ _ => ok200;
  json_Decode := fun _ => inr {[ "status" := VStr "success"; "data" := VStr "<data>" ]};
  json_Marshal := fun _ => inl "json: unsupported type";
  Shape := fun _ => string;
  zero := fun _ => "";
  json_Unmarshal := fun _ bytes _ => (bytes, None);
|}.

(** A handle whose base URL was overwritten with a control byte. *)
Definition broken_handle : Greip :=
  {| token := "token"; BaseURL := String (ascii_of_N 127) EmptyString; test := true |}.

(** What a computation returned or panicked with, and what it sent. *)
Definition result_of {A : Type} (m : Go A) (sent : list Request) : outcome A :=
  fst (run m sent).
Definition sent_by {A : Type} (m : Go A) (sent : list Request) : list Request :=
  snd (run m sent).

(** * Properties *)

(** ** The text of the errors *)

Lemma to_int_proper (n : Z) :
  Z.to_int n <> Decimal.Pos Decimal.Nil /\ Z.to_int n <> Decimal.Neg Decimal.Nil.
Proof.
  destruct n as [| p | p]; simpl; split; try discriminate;
    intros [= H]; exact (DecimalPos.Unsigned.to_uint_nonnil p H).
Qed.

(** The decimal text of a number determines the number. *)
Lemma fmt_d_inj (a b : Z) : fmt_d a = fmt_d b -> a = b.
Proof.
  unfold fmt_d. intros H.
  destruct (to_int_proper a) as [Ha1 Ha2]. destruct (to_int_proper b) as [Hb1 Hb2].
  pose proof (NilZero.isi _ Ha1 Ha2) as Ia. pose proof (NilZero.isi _ Hb1 Hb2) as Ib.
  rewrite H in Ia. rewrite Ia in Ib. injection Ib as Hab.
  rewrite <- (DecimalZ.of_to a), <- (DecimalZ.of_to b). by rewrite Hab.
Qed.

Lemma TransportError_inj (a b : Z) : TransportError a = TransportError b -> a = b.
Proof. unfold TransportError. intros H. apply fmt_d_inj. by simplify_eq/=. Qed.

Lemma InvalidParameter_inj (p q : string) : InvalidParameter p = InvalidParameter q -> p = q.
Proof. unfold InvalidParameter. intros H. by simplify_eq/=. Qed.

(** ** Validators *)

Lemma contains_true slice item : contains slice item = true <-> item ∈ slice.
Proof.
  induction slice as [|v rest IH]; simpl.
  - split; [discriminate | intros H; inversion H].
  - destruct (String.eqb v item) eqn:E.
    + apply String.eqb_eq in E. subst. split; [intros _; left | done].
    + apply String.eqb_neq in E. rewrite IH. split.
      * intros H. by right.
      * intros H. inversion H; subst; [congruence | done].
Qed.

Lemma contains_false slice item : contains slice item = false <-> item ∉ slice.
Proof.
  rewrite <- contains_true. destruct (contains slice item); split; try done.
Qed.

Lemma validateParams_None params availableParams :
  validateParams params availableParams = None <->
  Forall (fun p => p ∈ availableParams) params.
Proof.
  induction params as [|p rest IH]; simpl.
  - split; [constructor | done].
  - destruct (contains availableParams p) eqn:E; simpl.
    + apply contains_true in E. rewrite IH. split.
      * by constructor.
      * by inversion 1.
    + apply contains_false in E. split; [discriminate |].
      inversion 1; subst. contradiction.
Qed.

Lemma validateParams_first_foreign params availableParams :
  validateParams params availableParams = None \/
  exists pre p post,
    params = (pre ++ p :: post)%list /\
    Forall (fun q => q ∈ availableParams) pre /\
    (p ∉ availableParams) /\
    validateParams params availableParams = Some (InvalidParameter p).
Proof.
  induction params as [|p rest IH]; simpl; [by left |].
  destruct (contains availableParams p) eqn:E; simpl.
  - apply contains_true in E.
    destruct IH as [IH | (pre & q & post & -> & Hpre & Hq & Hv)]; [by left |].
    right. exists (p :: pre), q, post. repeat split; try done. by constructor.
  - apply contains_false in E. right. exists [], p, rest. repeat split; try done.
Qed.

(** C5: [validateParams] returns no error exactly when the requested list is
    empty or all its elements occur in the allowed list (equality of byte
    strings, so the match is exact and case-sensitive); in every other case
    the requested list splits as [pre ++ p :: post] with [pre] allowed and
    [p] not allowed, and the error is the invalid-parameter error naming
    [p], the first foreign value: its text is [invalid parameter: ]
    followed by [p], and two such errors are equal only for the same
    value. *)
Theorem validateParams_spec (params availableParams : list string) :
  (validateParams params availableParams = None <->
     params = [] \/ Forall (fun p => p ∈ availableParams) params) /\
  (validateParams params availableParams = None \/
   exists pre p post,
     params = (pre ++ p :: post)%list /\
     Forall (fun q => q ∈ availableParams) pre /\
     (p ∉ availableParams) /\
     validateParams params availableParams = Some (InvalidParameter p) /\
     validateParams params availableParams = Some ("invalid parameter: " ++ p)) /\
  (forall p q, InvalidParameter p = InvalidParameter q -> p = q).
Proof.
  split; [| split].
  - rewrite validateParams_None. split; [by right |].
    intros [-> | H]; [constructor | done].
  - destruct (validateParams_first_foreign params availableParams)
      as [H | (pre & p & post & Hsplit & Hpre & Hp & Hv)]; [by left |].
    right. by exists pre, p, post.
  - apply InvalidParameter_inj.
Qed.

Example validateParams_case_sensitive :
  validateParams ["device"; "Location"; "bogus"] availableGeoIPParams
  = Some (InvalidParameter "Location").
Proof. reflexivity. Qed.

Lemma upper_lower_byte c : upper_byte (lower_byte c) = upper_byte c.
Proof. destruct c as [[] [] [] [] [] [] [] []]; reflexivity. Qed.

Lemma lower_byte_ascii c :
  (N_of_ascii (lower_byte c) <? 128)%N = (N_of_ascii c <? 128)%N.
Proof. destruct c as [[] [] [] [] [] [] [] []]; reflexivity. Qed.

Lemma isASCII_lower s : isASCII (map_bytes lower_byte s) = isASCII s.
Proof. induction s as [|c s IH]; simpl; [done |]. by rewrite lower_byte_ascii, IH. Qed.

Lemma map_bytes_upper_lower s :
  map_bytes upper_byte (map_bytes lower_byte s) = map_bytes upper_byte s.
Proof. induction s as [|c s IH]; simpl; [done |]. by rewrite upper_lower_byte, IH. Qed.

Section ValidateLang.
Context {P : Platform}.

Lemma ToUpper_lower_ascii s :
  isASCII s = true -> ToUpper (map_bytes lower_byte s) = ToUpper s.
Proof.
  intros H. unfold ToUpper, strings_ToUpper.
  by rewrite isASCII_lower, H, map_bytes_upper_lower.
Qed.

(** C6: [validateLang] returns no error exactly when the upper-cased code is
    one of the eight codes of the fixed table [allowedLangs], and the
    unsupported-language error naming the code as given otherwise; two codes
    with the same upper-casing are accepted or refused together, and the
    lower-cased form of an ASCII code is treated as the code itself. *)
Theorem validateLang_spec (lang : string) :
  (validateLang lang = None <-> ToUpper lang ∈ allowedLangs) /\
  (validateLang lang = None \/
   (ToUpper lang ∉ allowedLangs) /\ validateLang lang = Some (UnsupportedLanguage lang)) /\
  (forall other, ToUpper other = ToUpper lang ->
     (validateLang other = None <-> validateLang lang = None)) /\
  (isASCII lang = true ->
     (validateLang (map_bytes lower_byte lang) = None <-> validateLang lang = None)).
Proof.
  assert (Hiff : forall l, validateLang l = None <-> ToUpper l ∈ allowedLangs).
  { intros l. unfold validateLang. rewrite <- contains_true.
    destruct (contains allowedLangs (ToUpper l)); simpl; split; done. }
  repeat split.
  - apply Hiff.
  - apply Hiff.
  - unfold validateLang. destruct (contains allowedLangs (ToUpper lang)) eqn:E; simpl.
    + by left.
    + right. split; [by apply contains_false | done].
  - rewrite !Hiff. congruence.
  - rewrite !Hiff. congruence.
  - rewrite !Hiff. by rewrite ToUpper_lower_ascii.
  - rewrite !Hiff. by rewrite ToUpper_lower_ascii.
Qed.

Example validateLang_accepts :
  Forall (fun l => validateLang l = None) ["EN"; "en"; "Ar"; "de"; "fR"; "es"; "ja"; "zh"; "RU"].
Proof. repeat constructor. Qed.

Example validateLang_refuses :
  validateLang "it" = Some (UnsupportedLanguage "it") /\
  validateLang "" = Some (UnsupportedLanguage "").
Proof. split; reflexivity. Qed.

End ValidateLang.

(** ** The request executor, step by step *)

Section ExecutorFacts.
Context {P : Platform}.

Lemma run_exchange req t (dst : Shape t) sent :
  run (exchange req t dst) sent = (settle (http_Do sent req) t dst, [req]).
Proof. reflexivity. Qed.

Lemma mark_test_cons g p0 rest :
  mark_test g (p0 :: rest) =
  (if test g then Some (<["mode" := VStr "test"]> (entries p0)) else p0) :: rest.
Proof. unfold mark_test. by destruct (test g). Qed.

Lemma mark_test_nil g : mark_test g [] = [].
Proof. unfold mark_test. by destruct (test g). Qed.

(** The query sent: each payload key gets its formatted value appended to
    what the URL already carried for it; other keys keep the URL's values. *)
Lemma add_query_lookup urlQuery p0 key :
  add_query urlQuery p0 !! key =
  match entries p0 !! key with
  | Some v => Some (default [] (urlQuery !! key) ++ [Sprint_v v])%list
  | None => urlQuery !! key
  end.
Proof.
  unfold add_query. revert key.
  apply (map_fold_weak_ind
    (fun (query : Values) (m : gmap string value) => forall key,
       query !! key = match m !! key with
                      | Some v => Some (default [] (urlQuery !! key) ++ [Sprint_v v])%list
                      | None => urlQuery !! key
                      end)).
  - intros key. by rewrite lookup_empty.
  - intros i x m query Hi IH key. unfold Values_Add.
    destruct (decide (i = key)) as [-> | Hne].
    + specialize (IH key). rewrite Hi in IH. rewrite IH.
      rewrite (lookup_insert_eq m). apply lookup_insert_eq.
    + rewrite (lookup_insert_ne m) by done. rewrite <- IH. by apply lookup_insert_ne.
Qed.

Lemma run_getRequest g endpoint t (dst : Shape t) payload sent :
  run (getRequest g endpoint t dst payload) sent =
  match url_Parse (BaseURL g ++ endpoint) with
  | inl err => (Returned (dst, Some err), [])
  | inr urlQuery =>
      match mark_test g payload with
      | [] => (Panicked (IndexOutOfRange 0 0), [])
      | p0 :: _ =>
          let req := GET_request g (BaseURL g ++ endpoint) (add_query urlQuery p0) in
          (settle (http_Do sent req) t dst, [req])
      end
  end.
Proof.
  unfold getRequest, run. cbv zeta. destruct (url_Parse _) as [err | urlQuery]; [done |].
  destruct (mark_test g payload) as [| p0 rest]; [done |].
  unfold index0, exchange, client_Do, lift, mbind, Go_bind, bind, ret. cbn.
  by rewrite app_nil_r.
Qed.

Lemma run_postRequest g endpoint t (dst : Shape t) payload sent :
  run (postRequest g endpoint t dst payload) sent =
  match url_Parse (BaseURL g ++ endpoint) with
  | inl err => (Returned (dst, Some err), [])
  | inr urlQuery =>
      match marked g payload with
      | None => (Panicked NilMapAssignment, [])
      | Some payload' =>
          match json_Marshal (to_value payload') with
          | inl err => (Returned (dst, Some err), [])
          | inr payloadBytes =>
              let req := POST_request g (BaseURL g ++ endpoint) urlQuery payloadBytes in
              (settle (http_Do sent req) t dst, [req])
          end
      end
  end.
Proof.
  unfold postRequest, run, marked. cbv zeta.
  destruct (url_Parse _) as [err | urlQuery]; [done |].
  unfold assign, exchange, client_Do, lift, mbind, Go_bind, bind, ret, throw.
  destruct (test g), payload as [m |]; cbn; try done;
    destruct (json_Marshal _); cbn; by rewrite ?app_nil_r.
Qed.

(** Whenever an executor has sent a request, its result is the settlement
    of what [client.Do] gave for that request. *)
Lemma getRequest_sent g endpoint t (dst : Shape t) payload sent req :
  sent_by (getRequest g endpoint t dst payload) sent = [req] ->
  result_of (getRequest g endpoint t dst payload) sent = settle (http_Do sent req) t dst.
Proof.
  unfold sent_by, result_of. rewrite run_getRequest.
  destruct (url_Parse _); [done |]. destruct (mark_test g payload); [done |].
  cbn. by intros [= <-].
Qed.

Lemma postRequest_sent g endpoint t (dst : Shape t) payload sent req :
  sent_by (postRequest g endpoint t dst payload) sent = [req] ->
  result_of (postRequest g endpoint t dst payload) sent = settle (http_Do sent req) t dst.
Proof.
  unfold sent_by, result_of. rewrite run_postRequest.
  destruct (url_Parse _); [done |]. destruct (marked g payload); [| done].
  destruct (json_Marshal _); [done |]. cbn. by intros [= <-].
Qed.

(** ** The envelope decoder *)

Lemma decodeEnvelope_api_error t body (dst : Shape t) env description :
  json_Decode body = inr env ->
  error_status env = true ->
  env !! "description" = Some (VStr description) ->
  decodeEnvelope t body dst = Returned (dst, Some (APIError description)).
Proof. intros Hd He Hdesc. unfold decodeEnvelope. by rewrite Hd, He, Hdesc. Qed.

Lemma decodeEnvelope_no_description t body (dst : Shape t) env :
  json_Decode body = inr env ->
  error_status env = true ->
  as_string (env !! "description") = None ->
  decodeEnvelope t body dst = Panicked InterfaceConversion.
Proof. intros Hd He Hdesc. unfold decodeEnvelope. by rewrite Hd, He, Hdesc. Qed.

Lemma error_status_true env :
  error_status env = true <->
  exists status, env !! "status" = Some (VStr status) /\ ToLower status = "error".
Proof.
  unfold error_status, as_string. split.
  - destruct (env !! "status") as [[]|]; try done.
    intros H. apply String.eqb_eq in H. eauto.
  - intros (status & -> & H). by apply String.eqb_eq.
Qed.

(** C7: when the decoded envelope has no [data] key and its status is not an
    error status, the decoder returns the missing-data-field error and
    leaves the destination as it was; so do both executors for a 2xx
    response with such a body. *)
Theorem missing_data_is_malformed (t : target) (dst : Shape t) (body : string)
  (env : gmap string value) :
  json_Decode body = inr env ->
  error_status env = false ->
  env !! "data" = None ->
  decodeEnvelope t body dst = Returned (dst, Some MalformedEnvelope) /\
  MalformedEnvelope = "invalid response format: missing data field" /\
  forall g endpoint sent req code,
    http_Do sent req = inr {| StatusCode := code; RespBody := body |} ->
    200 <= code < 300 ->
    (forall payload,
       sent_by (getRequest g endpoint t dst payload) sent = [req] ->
       result_of (getRequest g endpoint t dst payload) sent
       = Returned (dst, Some MalformedEnvelope)) /\
    (forall payload,
       sent_by (postRequest g endpoint t dst payload) sent = [req] ->
       result_of (postRequest g endpoint t dst payload) sent
       = Returned (dst, Some MalformedEnvelope)).
Proof.
  intros Hd He Hdata.
  assert (Hdec : decodeEnvelope t body dst = Returned (dst, Some MalformedEnvelope)).
  { unfold decodeEnvelope. by rewrite Hd, He, Hdata. }
  split; [done |]. split; [done |].
  intros g endpoint sent req code Hdo Hcode.
  assert (Hs : settle (http_Do sent req) t dst = Returned (dst, Some MalformedEnvelope)).
  { rewrite Hdo. unfold settle, non2xx. cbn.
    replace (code <? 200) with false by lia. replace (code >=? 300) with false by lia.
    done. }
  split; intros payload Hsent.
  - by rewrite (getRequest_sent _ _ _ _ _ _ _ Hsent).
  - by rewrite (postRequest_sent _ _ _ _ _ _ _ Hsent).
Qed.

(** C4: when either executor has sent a request and [client.Do] gave a
    response whose status is below 200 or at least 300, the executor
    returns the transport error carrying that status and the destination
    untouched, whatever the body is and whatever it would decode to.  The
    text of the error is [HTTP request failed with status code: ] followed
    by the status in decimal, and it is the error of no other status. *)
Theorem non2xx_is_transport_error (g : Greip) (endpoint : string) (t : target)
  (dst : Shape t) (sent : list Request) (req : Request) (resp : http_Response) :
  http_Do sent req = inr resp ->
  StatusCode resp < 200 \/ 300 <= StatusCode resp ->
  (forall payload,
     sent_by (getRequest g endpoint t dst payload) sent = [req] ->
     result_of (getRequest g endpoint t dst payload) sent
     = Returned (dst, Some (TransportError (StatusCode resp)))) /\
  (forall payload,
     sent_by (postRequest g endpoint t dst payload) sent = [req] ->
     result_of (postRequest g endpoint t dst payload) sent
     = Returned (dst, Some (TransportError (StatusCode resp)))) /\
  TransportError (StatusCode resp)
  = "HTTP request failed with status code: " ++ fmt_d (StatusCode resp) /\
  (forall other, TransportError other = TransportError (StatusCode resp) ->
     other = StatusCode resp).
Proof.
  intros Hdo Hcode.
  assert (Hs : settle (http_Do sent req) t dst
               = Returned (dst, Some (TransportError (StatusCode resp)))).
  { rewrite Hdo. unfold settle, non2xx.
    replace ((StatusCode resp <? 200) || (StatusCode resp >=? 300)) with true; [done |].
    symmetry. apply orb_true_iff. lia. }
  split; [| split; [| split]].
  - intros payload Hsent. by rewrite (getRequest_sent _ _ _ _ _ _ _ Hsent).
  - intros payload Hsent. by rewrite (postRequest_sent _ _ _ _ _ _ _ Hsent).
  - done.
  - intros other. apply TransportError_inj.
Qed.

End ExecutorFacts.

(** ** Endpoint methods *)

Section EndpointFacts.
Context {P : Platform}.

Lemma run_then_handback {T : Type} (m : Go (T * option error)) sent :
  run (r ← m; ret (handback r)) sent =
  (match result_of m sent with
   | Returned r => Returned (handback r)
   | Panicked p => Panicked p
   end, sent_by m sent).
Proof.
  unfold result_of, sent_by, run, mbind, Go_bind, bind, ret.
  destruct (m sent) as [[r | p] out]; cbn; by rewrite ?app_nil_r.
Qed.

Local Ltac refused name :=
  left; exists name; split; reflexivity.
Local Ltac validation_error :=
  right; split; [reflexivity | left; eexists; reflexivity].
Local Ltac reaches_get :=
  right; split; [reflexivity | right; left; eexists _, _; split; reflexivity].

(** Every call either stops at a required-input check, stops at another
    validation, or hands exactly one payload map to an executor. *)
Lemma invoke_cases g c :
  (exists name,
     first_missing (required c) = Some name /\
     invoke g c = ret (None, Some (MissingParameter name))) \/
  (first_missing (required c) = None /\
   ((exists e, invoke g c = ret (None, Some e)) \/
    (exists endpoint p0,
       uses_getRequest c = true /\ invoke g c = via_get g c endpoint [Some p0]) \/
    (exists fields,
       c = CallPayment (Some fields) /\
       invoke g c = via_post g c "paymentFraud" (Some {[ "data" := VMap fields ]})))).
Proof.
  destruct c as [ip params lang | ip | ips params lang | cc params lang | text
                | asn | email | phone cc | iban | data];
    cbn [invoke required first_missing].
  - unfold Lookup. cbv zeta. destruct (String.eqb ip ""); [refused "ip" |].
    destruct (validateParams _ _); [validation_error |].
    destruct (validateLang _); [validation_error | reaches_get].
  - unfold Threats. cbv zeta. destruct (String.eqb ip ""); [refused "ip" | reaches_get].
  - unfold BulkLookup. cbv zeta. destruct ips as [ips |]; [| refused "ips"]. cbn [is_nil].
    destruct (validateParams _ _); [validation_error |].
    destruct (validateLang _); [validation_error | reaches_get].
  - unfold Country. cbv zeta. destruct (String.eqb cc ""); [refused "countryCode" |].
    destruct (validateParams _ _); [validation_error |].
    destruct (validateLang _); [validation_error | reaches_get].
  - unfold Profanity. cbv zeta. destruct (String.eqb text ""); [refused "text" | reaches_get].
  - unfold AsnLookup. cbv zeta. destruct (String.eqb asn ""); [refused "asn" | reaches_get].
  - unfold Email. cbv zeta. destruct (String.eqb email ""); [refused "email" | reaches_get].
  - unfold Phone. cbv zeta. destruct (String.eqb phone ""); [refused "phone" |].
    destruct (String.eqb cc ""); [refused "countryCode" | reaches_get].
  - unfold IBAN. cbv zeta. destruct (String.eqb iban ""); [refused "iban" | reaches_get].
  - unfold Payment. destruct data as [fields |]; [| refused "data"].
    right. split; [reflexivity |]. right. right. by exists fields.
Qed.

(** C2 (as amended): a call whose first refused required input is [name] (a
    string that is empty, a list or a map that is nil) returns a nil result
    with the missing-parameter error naming [name], and sends nothing. *)
Theorem missing_parameter_before_network (g : Greip) (c : call) (sent : list Request)
  (name : string) :
  first_missing (required c) = Some name ->
  run (invoke g c) sent = (Returned (None, Some (MissingParameter name)), []).
Proof.
  intros Hmiss.
  destruct (invoke_cases g c) as [(name' & Hname & ->) | (Hnone & _)].
  - rewrite Hmiss in Hname. by injection Hname as ->.
  - congruence.
Qed.

Lemma sent_by_via_get g c endpoint payload sent :
  sent_by (via_get g c endpoint payload) sent
  = sent_by (getRequest g endpoint (target_of c) (zero (target_of c)) payload) sent.
Proof. unfold via_get, sent_by at 1. by rewrite run_then_handback. Qed.

Lemma sent_by_via_post g c endpoint payload sent :
  sent_by (via_post g c endpoint payload) sent
  = sent_by (postRequest g endpoint (target_of c) (zero (target_of c)) payload) sent.
Proof. unfold via_post, sent_by at 1. by rewrite run_then_handback. Qed.

(** What a request sent by [getRequest] carries for a key of the payload. *)
Lemma getRequest_query g endpoint t (dst : Shape t) p0 rest sent req key v :
  req ∈ sent_by (getRequest g endpoint t dst (p0 :: rest)) sent ->
  entries (if test g then Some (<["mode" := VStr "test"]> (entries p0)) else p0) !! key
    = Some v ->
  Method req = "GET" /\ URL req = BaseURL g ++ endpoint /\ query_adds req key (Sprint_v v).
Proof.
  unfold sent_by. rewrite run_getRequest, mark_test_cons.
  destruct (url_Parse (BaseURL g ++ endpoint)) as [err | urlQuery] eqn:Hurl;
    [by intros ?%elem_of_nil |].
  cbv zeta. cbn [snd]. intros ->%list_elem_of_singleton Hkey.
  split; [done |]. split; [done |].
  exists urlQuery. split; [exact Hurl |].
  unfold GET_request. cbn [Query]. rewrite add_query_lookup.
  match goal with
  | |- match ?x with _ => _ end = _ => replace x with (Some v) by (symmetry; exact Hkey)
  end.
  done.
Qed.

Lemma getRequest_sends_nothing_on_nil g endpoint t (dst : Shape t) sent :
  sent_by (getRequest g endpoint t dst []) sent = [].
Proof.
  unfold sent_by. rewrite run_getRequest, mark_test_nil.
  by destruct (url_Parse _).
Qed.

Lemma getRequest_test_mode g endpoint t (dst : Shape t) payload sent req :
  test g = true ->
  req ∈ sent_by (getRequest g endpoint t dst payload) sent ->
  Method req = "GET" /\ query_adds req "mode" "test".
Proof.
  intros Htest Hreq. destruct payload as [| p0 rest].
  - rewrite getRequest_sends_nothing_on_nil in Hreq. by apply elem_of_nil in Hreq.
  - destruct (getRequest_query g endpoint t dst p0 rest sent req "mode" (VStr "test") Hreq)
      as (Hm & _ & Hq); [| done].
    rewrite Htest. cbn. apply lookup_insert_eq.
Qed.

Lemma postRequest_test_mode g endpoint t (dst : Shape t) payload sent req :
  test g = true ->
  req ∈ sent_by (postRequest g endpoint t dst payload) sent ->
  Method req = "POST" /\
  exists m bytes,
    payload = Some m /\
    json_Marshal (VMap (<["mode" := VStr "test"]> m)) = inr bytes /\
    Body req = Some bytes.
Proof.
  intros Htest. unfold sent_by. rewrite run_postRequest. unfold marked. rewrite Htest.
  destruct (url_Parse _) as [err | urlQuery]; [by intros ?%elem_of_nil |].
  destruct payload as [m |]; [| by intros ?%elem_of_nil].
  cbn [to_value]. destruct (json_Marshal _) as [err | bytes] eqn:Hm;
    [by intros ?%elem_of_nil |].
  cbn. intros ->%list_elem_of_singleton. split; [done |]. by exists m, bytes.
Qed.

Lemma query_adds_has req key val : query_adds req key val -> query_has req key val.
Proof.
  intros (urlQuery & _ & Hq). eexists. split; [exact Hq |].
  apply elem_of_app. right. by apply list_elem_of_singleton.
Qed.

(** C3: on a handle whose test flag is set, every request [getRequest] sends
    is a GET whose query holds, for [mode], the URL's own values followed by
    [test], whatever the payload maps hold (an entry [mode] of the payload is
    overwritten); every request [postRequest] sends is a POST whose body is
    the JSON encoding of the payload map with [mode] set to the string
    [test]; and every request sent by any call of the public API carries the
    mark in one of these two ways.  The flag is read from the handle: no
    argument of a method reaches it. *)
Theorem test_mode_marks_every_request (g : Greip) :
  test g = true ->
  (forall endpoint t (dst : Shape t) payload sent req,
     req ∈ sent_by (getRequest g endpoint t dst payload) sent ->
     Method req = "GET" /\ query_adds req "mode" "test") /\
  (forall endpoint t (dst : Shape t) payload sent req,
     req ∈ sent_by (postRequest g endpoint t dst payload) sent ->
     Method req = "POST" /\
     exists m bytes,
       payload = Some m /\
       json_Marshal (VMap (<["mode" := VStr "test"]> m)) = inr bytes /\
       Body req = Some bytes) /\
  (forall c sent req, req ∈ sent_by (invoke g c) sent -> in_test_mode req).
Proof.
  intros Htest. split; [| split].
  - intros. by eapply getRequest_test_mode.
  - intros. by eapply postRequest_test_mode.
  - intros c sent req.
    destruct (invoke_cases g c)
      as [(name & _ & ->) | (_ & [(e & ->) | [(ep & p0 & _ & ->) | (fields & _ & ->)]])].
    + by intros ?%elem_of_nil.
    + by intros ?%elem_of_nil.
    + rewrite sent_by_via_get. intros Hreq. left.
      destruct (getRequest_test_mode _ _ _ _ _ _ _ Htest Hreq) as [Hm Hq].
      split; [done |]. by apply query_adds_has.
    + rewrite sent_by_via_post. intros Hreq. right.
      destruct (postRequest_test_mode _ _ _ _ _ _ _ Htest Hreq)
        as (Hm & m & bytes & [= <-] & Hbytes & Hbody).
      split; [done |]. eexists _, bytes. split; [done |]. split; [exact Hbytes |].
      apply lookup_insert_eq.
Qed.

(** What [client.Do] gave decides the executor's result in one of three
    ways. *)
Lemma settle_cases r t :
  (exists w e, settle r t (zero t) = Returned (w, Some e)) \/
  (exists resp w,
     r = inr resp /\ settle r t (zero t) = Returned (w, None) /\ decoded_from t resp w) \/
  (exists resp,
     r = inr resp /\ settle r t (zero t) = Panicked InterfaceConversion /\
     error_without_description resp).
Proof.
  unfold settle. destruct r as [err | resp]; [left; eauto |].
  unfold non2xx. destruct (StatusCode resp <? 200) eqn:Hlo; [left; eauto |].
  destruct (StatusCode resp >=? 300) eqn:Hhi; [left; eauto |]. cbn [orb].
  assert (Hcode : 200 <= StatusCode resp < 300) by lia.
  unfold decodeEnvelope.
  destruct (json_Decode (RespBody resp)) as [err | env] eqn:Hdec; [left; eauto |].
  destruct (error_status env) eqn:Hes.
  - destruct (as_string (env !! "description")) as [d |] eqn:Hd; [left; eauto |].
    right. right. exists resp. repeat split; try done; try lia. by exists env.
  - destruct (env !! "data") as [data |] eqn:Hdata; [| left; eauto].
    destruct (json_Marshal data) as [err | bytes] eqn:Hm; [left; eauto |].
    destruct (json_Unmarshal t bytes (zero t)) as [w [e |]] eqn:Hu; [left; eauto |].
    right. left. exists resp, w. repeat split; try done; try lia.
    by exists env, data, bytes.
Qed.

(** Every call ends in one of three ways: a nil result with an error; the
    result the decoder wrote in full from the data of a successful 2xx
    envelope, with a nil error; or the panic of the decoder on an error
    status without a string description, in which case the caller is handed
    nothing. *)
Lemma invoke_outcomes g c sent :
  (exists e, result_of (invoke g c) sent = Returned (None, Some e)) \/
  (exists r req resp,
     result_of (invoke g c) sent = Returned (Some r, None) /\
     sent_by (invoke g c) sent = [req] /\
     http_Do sent req = inr resp /\
     decoded_from (target_of c) resp r) \/
  (exists req resp,
     result_of (invoke g c) sent = Panicked InterfaceConversion /\
     sent_by (invoke g c) sent = [req] /\
     http_Do sent req = inr resp /\
     error_without_description resp).
Proof.
  assert (Hsettle : forall req,
    let o := settle (http_Do sent req) (target_of c) (zero (target_of c)) in
    (exists e, match o with Returned r => Returned (handback r) | Panicked p => Panicked p end
               = Returned (None, Some e)) \/
    (exists r resp,
       match o with Returned r => Returned (handback r) | Panicked p => Panicked p end
       = Returned (Some r, None) /\
       http_Do sent req = inr resp /\ decoded_from (target_of c) resp r) \/
    (exists resp,
       match o with Returned r => Returned (handback r) | Panicked p => Panicked p end
       = Panicked InterfaceConversion /\
       http_Do sent req = inr resp /\ error_without_description resp)).
  { intros req o. subst o.
    destruct (settle_cases (http_Do sent req) (target_of c))
      as [(w & e & ->) | [(resp & w & Hr & -> & Hd) | (resp & Hr & -> & Hd)]].
    - left. by exists e.
    - right. left. by exists w, resp.
    - right. right. by exists resp. }
  destruct (invoke_cases g c)
    as [(name & _ & ->) | (_ & [(e & ->) | [(ep & p0 & _ & ->) | (fields & _ & ->)]])].
  - left. by eexists.
  - left. by eexists.
  - unfold via_get, result_of at 1 2 3, sent_by at 1 2. rewrite run_then_handback.
    unfold result_of, sent_by. rewrite run_getRequest, mark_test_cons.
    destruct (url_Parse _) as [err | urlQuery]; [left; by eexists |].
    cbv zeta. cbn [fst snd].
    match goal with
    | |- context [settle (http_Do sent ?req) _ _] =>
        destruct (Hsettle req) as [(e & ->) | [(r & resp & -> & ? & ?) | (resp & -> & ? & ?)]]
    end.
    + left. by eexists.
    + right. left. by eexists r, _, resp.
    + right. right. by eexists _, resp.
  - unfold via_post, result_of at 1 2 3, sent_by at 1 2. rewrite run_then_handback.
    unfold result_of, sent_by. rewrite run_postRequest.
    destruct (url_Parse _) as [err | urlQuery]; [left; by eexists |].
    assert (Hmarked : exists m, marked g (Some {[ "data" := VMap fields ]}) = Some (Some m)).
    { unfold marked. destruct (test g); eauto. }
    destruct Hmarked as [m ->].
    destruct (json_Marshal _) as [err | bytes]; [left; by eexists |].
    cbv zeta. cbn [fst snd].
    match goal with
    | |- context [settle (http_Do sent ?req) _ _] =>
        destruct (Hsettle req) as [(e & ->) | [(r & resp & -> & ? & ?) | (resp & -> & ? & ?)]]
    end.
    + left. by eexists.
    + right. left. by eexists r, _, resp.
    + right. right. by eexists _, resp.
Qed.

(** C10: once the URL has parsed, [getRequest] called with no payload map
    panics on [payload[0]] (index 0 out of range for length 0) before anything
    is sent; every public method that uses [getRequest] either returns a
    validation error without calling it or calls it with a list of exactly
    one payload map, which is not nil; and no call of the public API ever
    panics with an index out of range. *)
Theorem getRequest_first_payload (g : Greip) (endpoint : string) (t : target)
  (dst : Shape t) (sent : list Request) (urlQuery : Values) :
  url_Parse (BaseURL g ++ endpoint) = inr urlQuery ->
  run (getRequest g endpoint t dst []) sent = (Panicked (IndexOutOfRange 0 0), []) /\
  (forall c, uses_getRequest c = true ->
     (exists e, invoke g c = ret (None, Some e)) \/
     (exists ep p0, invoke g c = via_get g c ep [Some p0])) /\
  (forall c sent' index len,
     result_of (invoke g c) sent' <> Panicked (IndexOutOfRange index len)).
Proof.
  intros Hurl. split; [| split].
  - by rewrite run_getRequest, Hurl, mark_test_nil.
  - intros c Huses.
    destruct (invoke_cases g c)
      as [(name & _ & ->) | (_ & [(e & ->) | [(ep & p0 & _ & ->) | (fields & -> & _)]])];
      [left | left | right | done]; eauto.
  - intros c sent' index len.
    destruct (invoke_outcomes g c sent')
      as [(e & ->) | [(r & req & resp & -> & _) | (req & resp & -> & _)]]; done.
Qed.

Lemma lang_when_sent g c endpoint (payload : gmap string value) v sent req :
  payload !! "lang" = Some (VStr v) ->
  req ∈ sent_by (via_get g c endpoint [Some payload]) sent ->
  query_adds req "lang" v.
Proof.
  intros Hlang. rewrite sent_by_via_get. intros Hreq.
  destruct (getRequest_query _ _ _ _ _ _ _ _ "lang" (VStr v) Hreq) as (_ & _ & Hq); [| done].
  destruct (test g); cbn; [| done]. by rewrite lookup_insert_ne.
Qed.

(** A method whose checks have passed sends one request, which carries each
    string field of its payload. *)
Lemma via_get_sends_field g c endpoint (payload : gmap string value) urlQuery key v sent :
  url_Parse (BaseURL g ++ endpoint) = inr urlQuery ->
  key <> "mode" ->
  payload !! key = Some (VStr v) ->
  exists req,
    sent_by (via_get g c endpoint [Some payload]) sent = [req] /\
    Query req !! key = Some (default [] (urlQuery !! key) ++ [v])%list.
Proof.
  intros Hurl Hkey Hfield. rewrite sent_by_via_get. unfold sent_by.
  rewrite run_getRequest, Hurl, mark_test_cons. cbv zeta. cbn [snd].
  eexists. split; [reflexivity |]. cbn [Query GET_request]. rewrite add_query_lookup.
  assert (Hin : entries (if test g
                         then Some (<["mode" := VStr "test"]> (entries (Some payload)))
                         else Some payload) !! key = Some (VStr v)).
  { destruct (test g); cbn [entries default]; [| exact Hfield].
    etrans; [by apply lookup_insert_ne | exact Hfield]. }
  match goal with
  | |- match ?x with _ => _ end = _ => replace x with (Some (VStr v)) by (symmetry; exact Hin)
  end.
  done.
Qed.

(** C9: [Lookup], [BulkLookup] and [Country] called without a language
    behave as when called with the language [EN]; every request such a
    call sends carries, for [lang], the URL's own values followed by [EN];
    and such a call with a required input that is not refused, optional
    parameters on the allow-list and a URL that parses does send exactly one
    request, carrying [EN] for [lang]. *)
Theorem lang_defaults_to_EN (g : Greip) :
  (forall ip params, Lookup g ip params [] = Lookup g ip params ["EN"]) /\
  (forall ips params, BulkLookup g ips params [] = BulkLookup g ips params ["EN"]) /\
  (forall countryCode params,
     Country g countryCode params [] = Country g countryCode params ["EN"]) /\
  (forall sent req,
     (forall ip params,
        req ∈ sent_by (Lookup g ip params []) sent -> query_adds req "lang" "EN") /\
     (forall ips params,
        req ∈ sent_by (BulkLookup g ips params []) sent -> query_adds req "lang" "EN") /\
     (forall countryCode params,
        req ∈ sent_by (Country g countryCode params []) sent ->
        query_adds req "lang" "EN")) /\
  (forall sent urlQuery ip params,
     ip <> "" ->
     Forall (fun p => p ∈ availableGeoIPParams) (elems params) ->
     url_Parse (BaseURL g ++ "IPLookup") = inr urlQuery ->
     exists req,
       sent_by (Lookup g ip params []) sent = [req] /\
       Query req !! "lang" = Some (default [] (urlQuery !! "lang") ++ ["EN"])%list) /\
  (forall sent urlQuery ips params,
     Forall (fun p => p ∈ availableGeoIPParams) (elems params) ->
     url_Parse (BaseURL g ++ "BulkLookup") = inr urlQuery ->
     exists req,
       sent_by (BulkLookup g (Some ips) params []) sent = [req] /\
       Query req !! "lang" = Some (default [] (urlQuery !! "lang") ++ ["EN"])%list) /\
  (forall sent urlQuery countryCode params,
     countryCode <> "" ->
     Forall (fun p => p ∈ availableCountryParams) (elems params) ->
     url_Parse (BaseURL g ++ "Country") = inr urlQuery ->
     exists req,
       sent_by (Country g countryCode params []) sent = [req] /\
       Query req !! "lang" = Some (default [] (urlQuery !! "lang") ++ ["EN"])%list).
Proof.
  split; [done |]. split; [done |]. split; [done |].
  split; [| split; [| split]]; cycle 1.
  { intros sent urlQuery ip params Hip%String.eqb_neq Hparams%validateParams_None Hurl.
    destruct (via_get_sends_field g (CallLookup ip params []) "IPLookup"
                {[ "ip" := VStr ip;
                   "params" := VStr (strings_Join (elems (or_empty params)) ",");
                   "lang" := VStr "EN" ]}
                urlQuery "lang" "EN" sent Hurl) as (req & Hsent & Hq); [done | |].
    { by rewrite !lookup_insert_ne, lookup_singleton_eq. }
    exists req. split; [| exact Hq]. rewrite <- Hsent.
    unfold Lookup. cbv zeta. rewrite Hip.
    destruct params as [l |]; cbn [or_empty elems default] in *;
      by rewrite ?Hparams. }
  { intros sent urlQuery ips params Hparams%validateParams_None Hurl.
    destruct (via_get_sends_field g (CallBulkLookup (Some ips) params []) "BulkLookup"
                {[ "ips" := VStr (strings_Join ips ",");
                   "params" := VStr (strings_Join (elems (or_empty params)) ",");
                   "lang" := VStr "EN" ]}
                urlQuery "lang" "EN" sent Hurl) as (req & Hsent & Hq); [done | |].
    { by rewrite !lookup_insert_ne, lookup_singleton_eq. }
    exists req. split; [| exact Hq]. rewrite <- Hsent.
    unfold BulkLookup. cbv zeta.
    destruct params as [l |]; cbn [or_empty elems default] in *;
      by rewrite ?Hparams. }
  { intros sent urlQuery countryCode params Hcc%String.eqb_neq
      Hparams%validateParams_None Hurl.
    destruct (via_get_sends_field g (CallCountry countryCode params []) "Country"
                {[ "CountryCode" := VStr countryCode;
                   "params" := VStr (strings_Join (elems (or_empty params)) ",");
                   "lang" := VStr "EN" ]}
                urlQuery "lang" "EN" sent Hurl) as (req & Hsent & Hq); [done | |].
    { by rewrite !lookup_insert_ne, lookup_singleton_eq. }
    exists req. split; [| exact Hq]. rewrite <- Hsent.
    unfold Country. cbv zeta. rewrite Hcc.
    destruct params as [l |]; cbn [or_empty elems default] in *;
      by rewrite ?Hparams. }
  intros sent req. split; [| split].
  - intros ip params. unfold Lookup. cbv zeta.
    destruct (String.eqb ip ""); [by intros ?%elem_of_nil |].
    destruct (validateParams _ _); [by intros ?%elem_of_nil |].
    destruct (validateLang _); [by intros ?%elem_of_nil |].
    intros Hreq.
    refine (lang_when_sent g (CallLookup ip params []) "IPLookup" _ "EN" sent req _ Hreq).
    by rewrite !lookup_insert_ne, lookup_singleton_eq.
  - intros ips params. unfold BulkLookup. cbv zeta.
    destruct ips as [ips |]; [| by intros ?%elem_of_nil].
    destruct (validateParams _ _); [by intros ?%elem_of_nil |].
    destruct (validateLang _); [by intros ?%elem_of_nil |].
    intros Hreq.
    refine (lang_when_sent g (CallBulkLookup (Some ips) params []) "BulkLookup" _ "EN"
              sent req _ Hreq).
    by rewrite !lookup_insert_ne, lookup_singleton_eq.
  - intros countryCode params. unfold Country. cbv zeta.
    destruct (String.eqb countryCode ""); [by intros ?%elem_of_nil |].
    destruct (validateParams _ _); [by intros ?%elem_of_nil |].
    destruct (validateLang _); [by intros ?%elem_of_nil |].
    intros Hreq.
    refine (lang_when_sent g (CallCountry countryCode params []) "Country" _ "EN"
              sent req _ Hreq).
    by rewrite !lookup_insert_ne, lookup_singleton_eq.
Qed.

End EndpointFacts.

(** ** Runs on the concrete platform *)

Example api_error_carries_description :
  result_of (Lookup (P := toy_api_error) live_handle "1.1.1.1" None []) []
  = Returned (None, Some (APIError "bad token")) /\
  result_of (Payment (P := toy_api_error) live_handle (Some ∅)) []
  = Returned (None, Some (APIError "bad token")).
Proof. split; reflexivity. Qed.

(** C1: on the 2xx response whose envelope is the single field
    [status = error], the decoder does not return a malformed-envelope error:
    the unchecked assertion on the missing description panics, in the
    decoder itself and through both executors. *)
Theorem error_status_without_description_panics :
  decodeEnvelope (P := toy_error_no_description) ResponseLookup "<body>" ""
  = Panicked InterfaceConversion /\
  run (getRequest (P := toy_error_no_description) live_handle "IPLookup"
         ResponseLookup "" [Some {[ "ip" := VStr "1.1.1.1" ]}]) []
  = (Panicked InterfaceConversion,
     [GET_request live_handle "https://greipapi.com/IPLookup" {[ "ip" := ["1.1.1.1"] ]}]) /\
  result_of (postRequest (P := toy_error_no_description) live_handle "paymentFraud"
               ResponsePayment "" (Some {[ "data" := VMap ∅ ]})) []
  = Panicked InterfaceConversion.
Proof. repeat split; vm_compute; reflexivity. Qed.

(** C8: with the same response, calls of the public API hand their caller
    neither a result nor an error: they panic after the request was sent. *)
Theorem error_envelope_returns_nothing :
  result_of (invoke (P := toy_error_no_description) live_handle
               (CallLookup "1.1.1.1" None [])) []
  = Panicked InterfaceConversion /\
  result_of (invoke (P := toy_error_no_description) live_handle
               (CallPayment (Some {[ "amount" := VNum "10" ]}))) []
  = Panicked InterfaceConversion /\
  length (sent_by (invoke (P := toy_error_no_description) live_handle
                     (CallLookup "1.1.1.1" None [])) []) = 1%nat.
Proof. repeat split; vm_compute; reflexivity. Qed.

Example success_returns_decoded_result :
  run (invoke (P := toy_success) live_handle (CallThreats "1.1.1.1")) []
  = (Returned (Some "<data>", None),
     [GET_request live_handle "https://greipapi.com/threats" {[ "ip" := ["1.1.1.1"] ]}]).
Proof. vm_compute. reflexivity. Qed.

(** C2, as stated, fails: a bulk lookup with an empty but non-nil list of
    addresses, and a payment check with an empty but non-nil map, pass the
    required-input check, send their request and return its result. *)
Lemma empty_list_and_map_reach_the_network :
  result_of (BulkLookup (P := toy_success) live_handle (Some []) None []) []
  = Returned (Some "<data>", None) /\
  length (sent_by (BulkLookup (P := toy_success) live_handle (Some []) None []) []) = 1%nat /\
  result_of (Payment (P := toy_success) live_handle (Some ∅)) []
  = Returned (Some "<data>", None) /\
  length (sent_by (Payment (P := toy_success) live_handle (Some ∅)) []) = 1%nat.
Proof. repeat split; vm_compute; reflexivity. Qed.

Lemma missing_parameter_witness :
  run (invoke (P := toy_success) live_handle (CallLookup "" (Some ["bogus"]) ["xx"])) []
  = (Returned (None, Some (MissingParameter "ip")), []) /\
  run (invoke (P := toy_success) live_handle (CallBulkLookup None None [])) []
  = (Returned (None, Some (MissingParameter "ips")), []) /\
  run (invoke (P := toy_success) live_handle (CallPhone "" "")) []
  = (Returned (None, Some (MissingParameter "phone")), []) /\
  run (invoke (P := toy_success) live_handle (CallPhone "5551234" "")) []
  = (Returned (None, Some (MissingParameter "countryCode")), []) /\
  run (invoke (P := toy_success) live_handle (CallPayment None)) []
  = (Returned (None, Some (MissingParameter "data")), []).
Proof.
  split; [| split; [| split; [| split]]];
    apply (missing_parameter_before_network (P := toy_success)); reflexivity.
Defined.

Lemma test_mode_witness :
  test test_handle = true /\
  length (sent_by (invoke (P := toy_success) test_handle (CallLookup "1.1.1.1" None [])) [])
  = 1%nat /\
  Forall (in_test_mode (P := toy_success))
    (sent_by (invoke (P := toy_success) test_handle (CallLookup "1.1.1.1" None [])) []) /\
  Forall (in_test_mode (P := toy_success))
    (sent_by (invoke (P := toy_success) test_handle
                (CallPayment (Some {[ "mode" := VStr "live" ]}))) []).
Proof.
  split; [reflexivity |]. split; [vm_compute; reflexivity |].
  split; apply Forall_forall; intros req Hreq;
    exact (proj2 (proj2 (test_mode_marks_every_request (P := toy_success)
                           test_handle eq_refl)) _ _ _ Hreq).
Defined.

Example test_mode_overrides_payload :
  map (fun req => Query req !! "mode")
    (sent_by (getRequest (P := toy_success) test_handle "IPLookup" ResponseLookup ""
                [Some {[ "mode" := VStr "live" ]}]) [])
  = [Some ["test"]].
Proof. vm_compute. reflexivity. Qed.

Lemma non2xx_witness :
  result_of (getRequest (P := toy_500) live_handle "IPLookup" ResponseLookup ""
               [Some {[ "ip" := VStr "1.1.1.1" ]}]) []
  = Returned ("", Some "HTTP request failed with status code: 500") /\
  result_of (postRequest (P := toy_500) live_handle "paymentFraud" ResponsePayment ""
               (Some {[ "data" := VMap ∅ ]})) []
  = Returned ("", Some "HTTP request failed with status code: 500").
Proof.
  assert (Hcode : 500 < 200 \/ 300 <= 500) by lia.
  split.
  - apply (proj1 (non2xx_is_transport_error (P := toy_500) live_handle "IPLookup"
                    ResponseLookup "" []
                    (GET_request live_handle "https://greipapi.com/IPLookup"
                       {[ "ip" := ["1.1.1.1"] ]})
                    {| StatusCode := 500; RespBody := "<body>" |} eq_refl Hcode)).
    vm_compute. reflexivity.
  - apply (proj1 (proj2 (non2xx_is_transport_error (P := toy_500) live_handle
                           "paymentFraud" ResponsePayment "" []
                           (POST_request live_handle "https://greipapi.com/paymentFraud"
                              ∅ "{}")
                           {| StatusCode := 500; RespBody := "<body>" |} eq_refl Hcode))).
    vm_compute. reflexivity.
Defined.

Lemma missing_data_witness :
  decodeEnvelope (P := toy_no_data) ResponseLookup "<body>" ""
  = Returned ("", Some MalformedEnvelope) /\
  result_of (getRequest (P := toy_no_data) live_handle "IPLookup" ResponseLookup ""
               [Some {[ "ip" := VStr "1.1.1.1" ]}]) []
  = Returned ("", Some MalformedEnvelope).
Proof.
  assert (Hcode : 200 <= 200 < 300) by lia.
  pose proof (missing_data_is_malformed (P := toy_no_data) ResponseLookup "" "<body>"
                {[ "status" := VStr "success" ]} eq_refl eq_refl eq_refl)
    as (Hdecoder & _ & Hexec).
  split; [exact Hdecoder |].
  apply (proj1 (Hexec live_handle "IPLookup" []
                  (GET_request live_handle "https://greipapi.com/IPLookup"
                     {[ "ip" := ["1.1.1.1"] ]})
                  200 eq_refl Hcode)).
  vm_compute. reflexivity.
Defined.

Lemma getRequest_first_payload_witness :
  run (getRequest (P := toy_success) live_handle "IPLookup" ResponseLookup "" []) []
  = (Panicked (IndexOutOfRange 0 0), []).
Proof.
  exact (proj1 (getRequest_first_payload (P := toy_success) live_handle "IPLookup"
                  ResponseLookup "" [] ∅ eq_refl)).
Defined.

Lemma lang_default_witness :
  (exists req,
     sent_by (Lookup (P := toy_success) live_handle "1.1.1.1" None []) [] = [req] /\
     Query req !! "lang" = Some ["EN"]) /\
  (exists req,
     sent_by (BulkLookup (P := toy_success) test_handle (Some ["1.1.1.1"; "2.2.2.2"])
                (Some ["device"]) []) [] = [req] /\
     Query req !! "lang" = Some ["EN"]) /\
  (exists req,
     sent_by (Country (P := toy_success) live_handle "US" (Some ["flag"]) []) [] = [req] /\
     Query req !! "lang" = Some ["EN"]).
Proof.
  assert (Hip : "1.1.1.1" <> "") by discriminate.
  assert (Hcc : "US" <> "") by discriminate.
  assert (Hnone : Forall (fun p => p ∈ availableGeoIPParams) []) by constructor.
  assert (Hdevice : Forall (fun p => p ∈ availableGeoIPParams) ["device"])
    by (apply validateParams_None; reflexivity).
  assert (Hflag : Forall (fun p => p ∈ availableCountryParams) ["flag"])
    by (apply validateParams_None; reflexivity).
  pose proof (lang_defaults_to_EN (P := toy_success) live_handle)
    as (_ & _ & _ & _ & Hlookup & _ & Hcountry).
  pose proof (lang_defaults_to_EN (P := toy_success) test_handle)
    as (_ & _ & _ & _ & _ & Hbulk & _).
  split; [| split].
  - exact (Hlookup [] ∅ "1.1.1.1" None Hip Hnone eq_refl).
  - exact (Hbulk [] ∅ ["1.1.1.1"; "2.2.2.2"] (Some ["device"]) Hdevice eq_refl).
  - exact (Hcountry [] ∅ "US" (Some ["flag"]) Hcc Hflag eq_refl).
Defined.

Example lang_default_is_sent :
  map (fun req => Query req !! "lang")
    (sent_by (Lookup (P := toy_success) live_handle "1.1.1.1" None []) [])
  = [Some ["EN"]] /\
  map (fun req => Query req !! "lang")
    (sent_by (Country (P := toy_success) live_handle "US" None ["fr"]) [])
  = [Some ["FR"]].
Proof. split; vm_compute; reflexivity. Qed.

(** * Further properties of the executor and the methods *)

Section Outcomes.
Context {P : Platform}.

Lemma settle_2xx resp t (dst : Shape t) :
  200 <= StatusCode resp < 300 ->
  settle (inr resp) t dst = decodeEnvelope t (RespBody resp) dst.
Proof.
  intros Hcode. unfold settle, non2xx.
  replace (StatusCode resp <? 200) with false by lia.
  by replace (StatusCode resp >=? 300) with false by lia.
Qed.

(** A call that has sent its request returns what the settlement gives,
    passed through the closing lines of the method. *)
Lemma invoke_sent g c sent req :
  sent_by (invoke g c) sent = [req] ->
  result_of (invoke g c) sent =
  match settle (http_Do sent req) (target_of c) (zero (target_of c)) with
  | Returned r => Returned (handback r)
  | Panicked p => Panicked p
  end.
Proof.
  destruct (invoke_cases g c)
    as [(name & _ & ->) | (_ & [(e & ->) | [(ep & p0 & _ & ->) | (fields & _ & ->)]])];
    try done.
  - rewrite sent_by_via_get. intros Hsent.
    unfold via_get, result_of at 1. rewrite run_then_handback. cbn [fst].
    by rewrite (getRequest_sent _ _ _ _ _ _ _ Hsent).
  - rewrite sent_by_via_post. intros Hsent.
    unfold via_post, result_of at 1. rewrite run_then_handback. cbn [fst].
    by rewrite (postRequest_sent _ _ _ _ _ _ _ Hsent).
Qed.

(** X1: an error status with a string description gives the error whose
    text is [API error: ] followed by that description, unchanged,
    whatever else the envelope holds. *)
Theorem api_error_verbatim (g : Greip) (c : call) (sent : list Request) (req : Request)
  (resp : http_Response) (env : gmap string value) (description : string) :
  sent_by (invoke g c) sent = [req] ->
  http_Do sent req = inr resp ->
  200 <= StatusCode resp < 300 ->
  json_Decode (RespBody resp) = inr env ->
  error_status env = true ->
  env !! "description" = Some (VStr description) ->
  result_of (invoke g c) sent = Returned (None, Some ("API error: " ++ description)).
Proof.
  intros Hsent Hdo Hcode Hdec Hes Hdesc.
  rewrite (invoke_sent _ _ _ _ Hsent), Hdo, settle_2xx by done.
  by rewrite (decodeEnvelope_api_error _ _ _ env description).
Qed.

(** X2: a 2xx response whose envelope has no error status and whose data
    decodes without error makes the call return the decoded value with a
    nil error. *)
Theorem success_returns_decoded (g : Greip) (c : call) (sent : list Request)
  (req : Request) (resp : http_Response) (r : Shape (target_of c)) :
  sent_by (invoke g c) sent = [req] ->
  http_Do sent req = inr resp ->
  decoded_from (target_of c) resp r ->
  result_of (invoke g c) sent = Returned (Some r, None).
Proof.
  intros Hsent Hdo (Hcode & env & data & bytes & Hdec & Hes & Hdata & Hm & Hu).
  rewrite (invoke_sent _ _ _ _ Hsent), Hdo, settle_2xx by done.
  unfold decodeEnvelope. by rewrite Hdec, Hes, Hdata, Hm, Hu.
Qed.

(** X3: when the data does not fit the shape, the call returns the
    decoder's error with a nil result: what the decoder had already written
    is dropped. *)
Theorem decode_failure_drops_partial_result (g : Greip) (c : call)
  (sent : list Request) (req : Request) (resp : http_Response)
  (env : gmap string value) (data : value) (bytes : string)
  (partial : Shape (target_of c)) (err : error) :
  sent_by (invoke g c) sent = [req] ->
  http_Do sent req = inr resp ->
  200 <= StatusCode resp < 300 ->
  json_Decode (RespBody resp) = inr env ->
  error_status env = false ->
  env !! "data" = Some data ->
  json_Marshal data = inr bytes ->
  json_Unmarshal (target_of c) bytes (zero (target_of c)) = (partial, Some err) ->
  result_of (invoke g c) sent = Returned (None, Some err).
Proof.
  intros Hsent Hdo Hcode Hdec Hes Hdata Hm Hu.
  rewrite (invoke_sent _ _ _ _ Hsent), Hdo, settle_2xx by done.
  unfold decodeEnvelope. by rewrite Hdec, Hes, Hdata, Hm, Hu.
Qed.

(** X4: the error of [client.Do], and the error of decoding the body of a
    2xx response, come back unchanged with a nil result. *)
Theorem transport_and_body_errors_verbatim (g : Greip) (c : call)
  (sent : list Request) (req : Request) (err : error) :
  sent_by (invoke g c) sent = [req] ->
  (http_Do sent req = inl err ->
   result_of (invoke g c) sent = Returned (None, Some err)) /\
  (forall resp,
     http_Do sent req = inr resp ->
     200 <= StatusCode resp < 300 ->
     json_Decode (RespBody resp) = inl err ->
     result_of (invoke g c) sent = Returned (None, Some err)).
Proof.
  intros Hsent. split.
  - intros Hdo. by rewrite (invoke_sent _ _ _ _ Hsent), Hdo.
  - intros resp Hdo Hcode Hdec.
    rewrite (invoke_sent _ _ _ _ Hsent), Hdo, settle_2xx by done.
    unfold decodeEnvelope. by rewrite Hdec.
Qed.

(** X18: whatever a call returns is all or nothing: a nil result with an
    error, or a nil error with the value the decoder wrote in full from the
    data of a 2xx envelope without error status.  A result never comes with
    an error, and never without having been decoded. *)
Theorem returned_pair_all_or_nothing (g : Greip) (c : call) (sent : list Request)
  (res : option (Shape (target_of c))) (err : option error) :
  result_of (invoke g c) sent = Returned (res, err) ->
  (res = None /\ exists e, err = Some e) \/
  (err = None /\
   exists r req resp,
     res = Some r /\
     sent_by (invoke g c) sent = [req] /\
     http_Do sent req = inr resp /\
     decoded_from (target_of c) resp r).
Proof.
  intros Hres.
  destruct (invoke_outcomes g c sent)
    as [(e & He) | [(r & req & resp & Hr & Hs & Hd & Hdec) | (req & resp & Hp & _)]];
    rewrite Hres in *.
  - injection He as -> ->. left. eauto.
  - injection Hr as -> ->. right. split; [done |]. by exists r, req, resp.
  - done.
Qed.

End Outcomes.

(** ** What is sent, and where *)

Section Routing.
Context {P : Platform}.

Local Ltac stops := left; eexists; reflexivity.
Local Ltac goes_get :=
  right; left; eexists; split; [reflexivity |]; split; [| reflexivity];
  by rewrite ?lookup_insert_ne, ?lookup_singleton_ne.

(** As [invoke_cases], with the path segment and without a [mode] key in
    the payload the method builds. *)
Lemma invoke_route g c :
  (exists e, invoke g c = ret (None, Some e)) \/
  (exists p0 : gmap string value,
     uses_getRequest c = true /\
     p0 !! "mode" = None /\
     invoke g c = via_get g c (endpoint_of c) [Some p0]) \/
  (exists fields,
     c = CallPayment (Some fields) /\
     invoke g c = via_post g c (endpoint_of c) (Some {[ "data" := VMap fields ]})).
Proof.
  destruct c as [ip params lang | ip | ips params lang | cc params lang | text
                | asn | email | phone cc | iban | data];
    cbn [invoke endpoint_of uses_getRequest].
  - unfold Lookup. cbv zeta. destruct (String.eqb ip ""); [stops |].
    destruct (validateParams _ _); [stops |].
    destruct (validateLang _); [stops | goes_get].
  - unfold Threats. cbv zeta. destruct (String.eqb ip ""); [stops | goes_get].
  - unfold BulkLookup. cbv zeta. destruct ips as [ips |]; [| stops].
    destruct (validateParams _ _); [stops |].
    destruct (validateLang _); [stops | goes_get].
  - unfold Country. cbv zeta. destruct (String.eqb cc ""); [stops |].
    destruct (validateParams _ _); [stops |].
    destruct (validateLang _); [stops | goes_get].
  - unfold Profanity. cbv zeta. destruct (String.eqb text ""); [stops | goes_get].
  - unfold AsnLookup. cbv zeta. destruct (String.eqb asn ""); [stops | goes_get].
  - unfold Email. cbv zeta. destruct (String.eqb email ""); [stops | goes_get].
  - unfold Phone. cbv zeta. destruct (String.eqb phone ""); [stops |].
    destruct (String.eqb cc ""); [stops | goes_get].
  - unfold IBAN. cbv zeta. destruct (String.eqb iban ""); [stops | goes_get].
  - unfold Payment. destruct data as [fields |]; [| stops].
    right. right. by exists fields.
Qed.

Lemma entries_marked_first g p0 :
  entries (if test g then Some (<["mode" := VStr "test"]> (entries p0)) else p0)
  = first_payload g p0.
Proof. unfold first_payload. by destruct (test g). Qed.

(** A request sent by [getRequest], spelled out. *)
Lemma getRequest_request g endpoint t (dst : Shape t) p0 rest sent req :
  req ∈ sent_by (getRequest g endpoint t dst (p0 :: rest)) sent ->
  exists urlQuery,
    url_Parse (BaseURL g ++ endpoint) = inr urlQuery /\
    req = GET_request g (BaseURL g ++ endpoint)
            (add_query urlQuery (Some (first_payload g p0))).
Proof.
  unfold sent_by. rewrite run_getRequest, mark_test_cons.
  destruct (url_Parse (BaseURL g ++ endpoint)) as [err | urlQuery] eqn:Hurl;
    [by intros ?%elem_of_nil |].
  cbv zeta. cbn [snd]. intros ->%list_elem_of_singleton.
  exists urlQuery. split; [done |]. f_equal.
  unfold add_query. f_equal. cbn [entries default]. by rewrite entries_marked_first.
Qed.

(** A request sent by [postRequest], spelled out. *)
Lemma postRequest_request g endpoint t (dst : Shape t) payload sent req :
  req ∈ sent_by (postRequest g endpoint t dst payload) sent ->
  exists urlQuery payload' bytes,
    url_Parse (BaseURL g ++ endpoint) = inr urlQuery /\
    marked g payload = Some payload' /\
    json_Marshal (to_value payload') = inr bytes /\
    req = POST_request g (BaseURL g ++ endpoint) urlQuery bytes.
Proof.
  unfold sent_by. rewrite run_postRequest.
  destruct (url_Parse (BaseURL g ++ endpoint)) as [err | urlQuery] eqn:Hurl;
    [by intros ?%elem_of_nil |].
  destruct (marked g payload) as [payload' |] eqn:Hmarked; [| by intros ?%elem_of_nil].
  destruct (json_Marshal (to_value payload')) as [err | bytes] eqn:Hm;
    [by intros ?%elem_of_nil |].
  cbv zeta. cbn [snd]. intros ->%list_elem_of_singleton.
  by exists urlQuery, payload', bytes.
Qed.

Lemma invoke_request g c sent req :
  req ∈ sent_by (invoke g c) sent ->
  (uses_getRequest c = true /\
   exists query, req = GET_request g (BaseURL g ++ endpoint_of c) query) \/
  (uses_getRequest c = false /\
   exists urlQuery bytes, req = POST_request g (BaseURL g ++ endpoint_of c) urlQuery bytes).
Proof.
  destruct (invoke_route g c)
    as [(e & ->) | [(p0 & Hget & _ & ->) | (fields & -> & ->)]].
  - by intros ?%elem_of_nil.
  - rewrite sent_by_via_get. intros (urlQuery & _ & ->)%getRequest_request.
    left. split; [done |]. eauto.
  - rewrite sent_by_via_post.
    intros (urlQuery & payload' & bytes & _ & _ & _ & ->)%postRequest_request.
    right. split; [done |]. eauto.
Qed.

(** X5: a call sends at most one request, and so does each executor. *)
Theorem at_most_one_request (g : Greip) (sent : list Request) :
  (forall c, (length (sent_by (invoke g c) sent) <= 1)%nat) /\
  (forall endpoint t (dst : Shape t) payload,
     (length (sent_by (getRequest g endpoint t dst payload) sent) <= 1)%nat) /\
  (forall endpoint t (dst : Shape t) payload,
     (length (sent_by (postRequest g endpoint t dst payload) sent) <= 1)%nat).
Proof.
  assert (Hget : forall endpoint t (dst : Shape t) payload,
            (length (sent_by (getRequest g endpoint t dst payload) sent) <= 1)%nat).
  { intros. unfold sent_by. rewrite run_getRequest.
    destruct (url_Parse _); [cbn; lia |]. destruct (mark_test g payload); cbn; lia. }
  assert (Hpost : forall endpoint t (dst : Shape t) payload,
            (length (sent_by (postRequest g endpoint t dst payload) sent) <= 1)%nat).
  { intros. unfold sent_by. rewrite run_postRequest.
    destruct (url_Parse _); [cbn; lia |]. destruct (marked g payload); [| cbn; lia].
    destruct (json_Marshal _); cbn; lia. }
  split; [| by split].
  intros c.
  destruct (invoke_cases g c)
    as [(name & _ & ->) | (_ & [(e & ->) | [(ep & p0 & _ & ->) | (fields & _ & ->)]])].
  - cbn. lia.
  - cbn. lia.
  - rewrite sent_by_via_get. apply Hget.
  - rewrite sent_by_via_post. apply Hpost.
Qed.

(** X6: when [http.NewRequest] refuses the URL, both executors return its
    error at once: nothing is sent, nothing is written, and the payload is
    not looked at (no panic even for zero payload maps or a nil map). *)
Theorem url_error_before_anything (g : Greip) (endpoint : string) (t : target)
  (dst : Shape t) (sent : list Request) (err : error) :
  url_Parse (BaseURL g ++ endpoint) = inl err ->
  (forall payload,
     run (getRequest g endpoint t dst payload) sent = (Returned (dst, Some err), [])) /\
  (forall payload,
     run (postRequest g endpoint t dst payload) sent = (Returned (dst, Some err), [])).
Proof.
  intros Hurl. split; intros payload.
  - by rewrite run_getRequest, Hurl.
  - by rewrite run_postRequest, Hurl.
Qed.

(** X7: every request a call sends carries the bearer token of the handle
    in [Authorization] and the JSON content type, each as the only value of
    its header. *)
Theorem every_request_is_authorized (g : Greip) (c : call) (sent : list Request)
  (req : Request) :
  req ∈ sent_by (invoke g c) sent ->
  Header req !! "Authorization" = Some ["Bearer " ++ token g] /\
  Header req !! "Content-Type" = Some ["application/json"].
Proof.
  intros [(_ & query & ->) | (_ & urlQuery & bytes & ->)]%invoke_request;
    cbn [Header GET_request POST_request]; unfold headers, Header_Set; split.
  - etrans; [by apply lookup_insert_ne | apply lookup_insert_eq].
  - apply lookup_insert_eq.
  - etrans; [by apply lookup_insert_ne | apply lookup_insert_eq].
  - apply lookup_insert_eq.
Qed.

(** X8: every request a call sends goes to the base URL of the handle
    followed by the path segment of the method; the payment check is sent
    as a POST with a body, every other method as a GET without one. *)
Theorem every_request_is_routed (g : Greip) (c : call) (sent : list Request)
  (req : Request) :
  req ∈ sent_by (invoke g c) sent ->
  URL req = BaseURL g ++ endpoint_of c /\
  (if uses_getRequest c
   then Method req = "GET" /\ Body req = None
   else Method req = "POST" /\ is_Some (Body req)).
Proof.
  intros [(-> & query & ->) | (-> & urlQuery & bytes & ->)]%invoke_request.
  - done.
  - split; [done |]. split; [done |]. by eexists.
Qed.

End Routing.

(** ** Payloads on the wire *)

Section Wire.
Context {P : Platform}.

(** Replace the lookup a [match] of the goal inspects by its value [H]. *)
Local Ltac under_lookup H :=
  match type of H with
  | _ = ?o =>
      match goal with
      | |- match ?x with _ => _ end = _ => replace x with o by (symmetry; exact H)
      end
  end.

Lemma request_query_keys g endpoint urlQuery p0 key :
  Query (GET_request g (BaseURL g ++ endpoint)
           (add_query urlQuery (Some (first_payload g p0)))) !! key =
  match first_payload g p0 !! key with
  | Some v => Some (default [] (urlQuery !! key) ++ [Sprint_v v])%list
  | None => urlQuery !! key
  end.
Proof. cbn [Query GET_request]. by rewrite add_query_lookup. Qed.

(** X9: of the payload maps handed to [getRequest] only the first is used:
    further maps change neither the request nor the result. *)
Theorem only_first_payload_used (g : Greip) (endpoint : string) (t : target)
  (dst : Shape t) (p0 : gomap) (rest : list gomap) (sent : list Request) :
  run (getRequest g endpoint t dst (p0 :: rest)) sent
  = run (getRequest g endpoint t dst [p0]) sent.
Proof. by rewrite !run_getRequest, !mark_test_cons. Qed.

(** X10: in a request sent by [getRequest], each key of the first payload
    map (with [mode] set when the handle is in test mode) has its formatted
    value appended to the values the URL already had for that key, and
    every other key keeps exactly the URL's values: nothing is dropped and
    nothing else is added. *)
Theorem getRequest_query_per_key (g : Greip) (endpoint : string) (t : target)
  (dst : Shape t) (p0 : gomap) (rest : list gomap) (sent : list Request)
  (req : Request) :
  req ∈ sent_by (getRequest g endpoint t dst (p0 :: rest)) sent ->
  exists urlQuery,
    url_Parse (BaseURL g ++ endpoint) = inr urlQuery /\
    forall key,
      Query req !! key =
      match first_payload g p0 !! key with
      | Some v => Some (default [] (urlQuery !! key) ++ [Sprint_v v])%list
      | None => urlQuery !! key
      end.
Proof.
  intros (urlQuery & Hurl & ->)%getRequest_request.
  exists urlQuery. split; [done |]. intros key. apply request_query_keys.
Qed.

(** X11: on a handle that is not in test mode no call adds a [mode]: a GET
    carries for [mode] only what the URL itself had, and the body of the
    payment POST is the encoding of the map with the single key [data]. *)
Theorem no_mode_outside_test_mode (g : Greip) (c : call) (sent : list Request)
  (req : Request) :
  test g = false ->
  req ∈ sent_by (invoke g c) sent ->
  (Method req = "GET" /\
   exists urlQuery,
     url_Parse (URL req) = inr urlQuery /\ Query req !! "mode" = urlQuery !! "mode") \/
  (Method req = "POST" /\
   exists fields bytes,
     c = CallPayment (Some fields) /\
     Body req = Some bytes /\
     json_Marshal (VMap {[ "data" := VMap fields ]}) = inr bytes).
Proof.
  intros Htest.
  destruct (invoke_route g c)
    as [(e & ->) | [(p0 & _ & Hmode & ->) | (fields & -> & ->)]].
  - by intros ?%elem_of_nil.
  - rewrite sent_by_via_get. intros (urlQuery & Hurl & ->)%getRequest_request.
    left. split; [done |]. exists urlQuery. split; [exact Hurl |].
    rewrite request_query_keys. unfold first_payload. rewrite Htest.
    cbn [entries default]. by under_lookup Hmode.
  - rewrite sent_by_via_post.
    intros (urlQuery & payload' & bytes & _ & Hmarked & Hm & ->)%postRequest_request.
    right. split; [done |]. exists fields, bytes. split; [done |]. split; [done |].
    unfold marked in Hmarked. rewrite Htest in Hmarked. by injection Hmarked as <-.
Qed.

Lemma elems_or_empty (params : slice string) : elems (or_empty params) = elems params.
Proof. by destruct params. Qed.

Lemma validateLang_None lang : validateLang lang = None -> ToUpper lang ∈ allowedLangs.
Proof.
  unfold validateLang. destruct (contains allowedLangs (ToUpper lang)) eqn:E; [| done].
  intros _. by apply contains_true.
Qed.

(** X12: a request leaves only for inputs that passed every check of the
    method: no required input is refused, and for the three lookups with
    optional parameters all of them are on the method's allow-list and the
    upper-cased language is in the language table. *)
Theorem only_validated_inputs_reach_network (g : Greip) (c : call)
  (sent : list Request) (req : Request) :
  req ∈ sent_by (invoke g c) sent ->
  first_missing (required c) = None /\ validated c.
Proof.
  destruct c as [ip params lang | ip | ips params lang | cc params lang | text
                | asn | email | phone cc | iban | data];
    cbn [invoke required first_missing validated].
  - unfold Lookup. cbv zeta. destruct (String.eqb ip ""); [by intros ?%elem_of_nil |].
    destruct (validateParams _ _) eqn:Hp; [by intros ?%elem_of_nil |].
    destruct (validateLang _) eqn:Hl; [by intros ?%elem_of_nil |]. intros _.
    rewrite !elems_or_empty in Hp. split; [done |]. split.
    + by apply validateParams_None.
    + by apply validateLang_None.
  - unfold Threats. cbv zeta. by destruct (String.eqb ip ""); [intros ?%elem_of_nil |].
  - unfold BulkLookup. cbv zeta. destruct ips as [ips |]; [| by intros ?%elem_of_nil].
    destruct (validateParams _ _) eqn:Hp; [by intros ?%elem_of_nil |].
    destruct (validateLang _) eqn:Hl; [by intros ?%elem_of_nil |]. intros _.
    rewrite !elems_or_empty in Hp. split; [done |]. split.
    + by apply validateParams_None.
    + by apply validateLang_None.
  - unfold Country. cbv zeta. destruct (String.eqb cc ""); [by intros ?%elem_of_nil |].
    destruct (validateParams _ _) eqn:Hp; [by intros ?%elem_of_nil |].
    destruct (validateLang _) eqn:Hl; [by intros ?%elem_of_nil |]. intros _.
    rewrite !elems_or_empty in Hp. split; [done |]. split.
    + by apply validateParams_None.
    + by apply validateLang_None.
  - unfold Profanity. cbv zeta. by destruct (String.eqb text ""); [intros ?%elem_of_nil |].
  - unfold AsnLookup. cbv zeta. by destruct (String.eqb asn ""); [intros ?%elem_of_nil |].
  - unfold Email. cbv zeta. by destruct (String.eqb email ""); [intros ?%elem_of_nil |].
  - unfold Phone. cbv zeta. destruct (String.eqb phone ""); [by intros ?%elem_of_nil |].
    by destruct (String.eqb cc ""); [intros ?%elem_of_nil |].
  - unfold IBAN. cbv zeta. by destruct (String.eqb iban ""); [intros ?%elem_of_nil |].
  - unfold Payment. by destruct data; [| intros ?%elem_of_nil].
Qed.

Lemma field_when_sent g c endpoint (payload : gmap string value) key v sent req :
  key <> "mode" ->
  payload !! key = Some (VStr v) ->
  req ∈ sent_by (via_get g c endpoint [Some payload]) sent ->
  query_adds req key v.
Proof.
  intros Hkey Hfield. rewrite sent_by_via_get.
  intros (urlQuery & Hurl & ->)%getRequest_request.
  exists urlQuery. split; [exact Hurl |].
  rewrite request_query_keys. unfold first_payload. cbn [entries default].
  destruct (test g).
  - assert (Hfield' : <["mode" := VStr "test"]> payload !! key = Some (VStr v))
      by (etrans; [by apply lookup_insert_ne | exact Hfield]).
    by under_lookup Hfield'.
  - by under_lookup Hfield.
Qed.

(** X13: what the three lookups put on the wire: the address (or the
    addresses joined by commas, or the country code under the key
    [CountryCode]), the optional parameters joined by commas (the empty
    string when there are none or the list is nil), and the language in
    upper case, each appended to what the URL had for that key. *)
Theorem lookup_wire_fields (g : Greip) (sent : list Request) (req : Request) :
  (forall ip params lang,
     req ∈ sent_by (Lookup g ip params lang) sent ->
     query_adds req "ip" ip /\
     query_adds req "params" (strings_Join (elems params) ",") /\
     query_adds req "lang" (ToUpper (langValue lang))) /\
  (forall ips params lang,
     req ∈ sent_by (BulkLookup g ips params lang) sent ->
     query_adds req "ips" (strings_Join (elems ips) ",") /\
     query_adds req "params" (strings_Join (elems params) ",") /\
     query_adds req "lang" (ToUpper (langValue lang))) /\
  (forall countryCode params lang,
     req ∈ sent_by (Country g countryCode params lang) sent ->
     query_adds req "CountryCode" countryCode /\
     query_adds req "params" (strings_Join (elems params) ",") /\
     query_adds req "lang" (ToUpper (langValue lang))).
Proof.
  split; [| split].
  - intros ip params lang. unfold Lookup. cbv zeta.
    destruct (String.eqb ip ""); [by intros ?%elem_of_nil |].
    destruct (validateParams _ _); [by intros ?%elem_of_nil |].
    destruct (validateLang _); [by intros ?%elem_of_nil |].
    rewrite !elems_or_empty. intros Hreq.
    split; [| split];
      refine (field_when_sent g (CallLookup ip params lang) "IPLookup" _ _ _ sent req
                _ _ Hreq); try done;
      by rewrite ?lookup_insert_ne, ?lookup_insert_eq, ?lookup_singleton_eq.
  - intros ips params lang. unfold BulkLookup. cbv zeta.
    destruct ips as [ips |]; [| by intros ?%elem_of_nil].
    destruct (validateParams _ _); [by intros ?%elem_of_nil |].
    destruct (validateLang _); [by intros ?%elem_of_nil |].
    rewrite !elems_or_empty. intros Hreq.
    split; [| split];
      refine (field_when_sent g (CallBulkLookup (Some ips) params lang) "BulkLookup"
                _ _ _ sent req _ _ Hreq); try done;
      by rewrite ?lookup_insert_ne, ?lookup_insert_eq, ?lookup_singleton_eq.
  - intros countryCode params lang. unfold Country. cbv zeta.
    destruct (String.eqb countryCode ""); [by intros ?%elem_of_nil |].
    destruct (validateParams _ _); [by intros ?%elem_of_nil |].
    destruct (validateLang _); [by intros ?%elem_of_nil |].
    rewrite !elems_or_empty. intros Hreq.
    split; [| split];
      refine (field_when_sent g (CallCountry countryCode params lang) "Country"
                _ _ _ sent req _ _ Hreq); try done;
      by rewrite ?lookup_insert_ne, ?lookup_insert_eq, ?lookup_singleton_eq.
Qed.

End Wire.

(** ** The POST executor and the payment check *)

Section Post.
Context {P : Platform}.

(** X14: [postRequest] given a nil payload map panics on the write of the
    mode when the handle is in test mode, before anything is sent; outside
    test mode it sends the encoding of the nil map.  No call of the
    public API can raise that panic. *)
Theorem postRequest_nil_payload (g : Greip) (endpoint : string) (t : target)
  (dst : Shape t) (sent : list Request) (urlQuery : Values) :
  url_Parse (BaseURL g ++ endpoint) = inr urlQuery ->
  (test g = true ->
   run (postRequest g endpoint t dst None) sent = (Panicked NilMapAssignment, [])) /\
  (test g = false ->
   forall req, req ∈ sent_by (postRequest g endpoint t dst None) sent ->
     exists bytes, json_Marshal VNil = inr bytes /\ Body req = Some bytes) /\
  (forall c sent', result_of (invoke g c) sent' <> Panicked NilMapAssignment).
Proof.
  intros Hurl. split; [| split].
  - intros Htest. rewrite run_postRequest, Hurl. unfold marked. by rewrite Htest.
  - intros Htest req.
    intros (urlQuery' & payload' & bytes & _ & Hmarked & Hm & ->)%postRequest_request.
    unfold marked in Hmarked. rewrite Htest in Hmarked. injection Hmarked as <-.
    by exists bytes.
  - intros c sent'.
    destruct (invoke_outcomes g c sent')
      as [(e & ->) | [(r & req & resp & -> & _) | (req & resp & -> & _)]]; done.
Qed.

(** X15: the body of the request the payment check sends is the encoding
    of a map that holds the caller's map under [data], holds [mode] exactly
    when the handle is in test mode, and holds no other key: the keys of the
    caller's map never appear at the top level. *)
Theorem payment_body (g : Greip) (fields : gmap string value) (sent : list Request)
  (req : Request) :
  req ∈ sent_by (Payment g (Some fields)) sent ->
  exists (m : gmap string value) bytes,
    Body req = Some bytes /\
    json_Marshal (VMap m) = inr bytes /\
    m !! "data" = Some (VMap fields) /\
    m !! "mode" = (if test g then Some (VStr "test") else None) /\
    forall key, key <> "data" -> key <> "mode" -> m !! key = None.
Proof.
  intros Hreq.
  assert (Hvia : req ∈ sent_by (via_post g (CallPayment (Some fields)) "paymentFraud"
                                  (Some {[ "data" := VMap fields ]})) sent)
    by exact Hreq.
  clear Hreq. revert Hvia. rewrite sent_by_via_post.
  intros (urlQuery & payload' & bytes & _ & Hmarked & Hm & ->)%postRequest_request.
  unfold marked in Hmarked. destruct (test g); injection Hmarked as <-;
    eexists _, bytes; (split; [reflexivity |]); (split; [exact Hm |]).
  - split; [| split].
    + etrans; [by apply lookup_insert_ne | apply lookup_singleton_eq].
    + apply lookup_insert_eq.
    + intros key Hd Hmode.
      etrans; [by apply lookup_insert_ne | by apply lookup_singleton_ne].
  - split; [| split].
    + apply lookup_singleton_eq.
    + by apply lookup_singleton_ne.
    + intros key Hd Hmode. by apply lookup_singleton_ne.
Qed.

(** X16: when the payload of the payment check cannot be encoded, the call
    returns the encoder's error with a nil result and sends nothing. *)
Theorem marshal_failure_sends_nothing (g : Greip) (fields : gmap string value)
  (sent : list Request) (urlQuery : Values) (payload : gomap) (err : error) :
  url_Parse (BaseURL g ++ "paymentFraud") = inr urlQuery ->
  marked g (Some {[ "data" := VMap fields ]}) = Some payload ->
  json_Marshal (to_value payload) = inl err ->
  run (Payment g (Some fields)) sent = (Returned (None, Some err), []).
Proof.
  intros Hurl Hmarked Hm.
  transitivity (run (via_post g (CallPayment (Some fields)) "paymentFraud"
                       (Some {[ "data" := VMap fields ]})) sent); [reflexivity |].
  unfold via_post. rewrite run_then_handback. unfold result_of, sent_by.
  by rewrite run_postRequest, Hurl, Hmarked, Hm.
Qed.

End Post.

(** ** The parameter validator on composed lists *)

(** X17: validating a concatenation is validating its parts in order: the
    error is that of the first part when it has one, and otherwise that of
    the second. *)
Theorem validateParams_app (params more availableParams : list string) :
  validateParams (params ++ more) availableParams =
  match validateParams params availableParams with
  | Some err => Some err
  | None => validateParams more availableParams
  end.
Proof.
  induction params as [| p rest IH]; simpl; [done |].
  by destruct (contains availableParams p).
Qed.

(** ** Further runs on the concrete platforms *)

Lemma api_error_verbatim_witness :
  result_of (invoke (P := toy_api_error) live_handle (CallThreats "1.1.1.1")) []
  = Returned (None, Some "API error: bad token").
Proof.
  assert (Hcode : 200 <= 200 < 300) by lia.
  apply (api_error_verbatim (P := toy_api_error) live_handle (CallThreats "1.1.1.1") []
           (GET_request live_handle "https://greipapi.com/threats" {[ "ip" := ["1.1.1.1"] ]})
           {| StatusCode := 200; RespBody := "<body>" |}
           {[ "status" := VStr "ERROR"; "description" := VStr "bad token" ]}
           "bad token");
    try exact Hcode; vm_compute; reflexivity.
Defined.

Lemma success_returns_decoded_witness :
  result_of (invoke (P := toy_success) live_handle (CallThreats "1.1.1.1")) []
  = Returned (Some "<data>", None).
Proof.
  assert (Hcode : 200 <= 200 < 300) by lia.
  apply (success_returns_decoded (P := toy_success) live_handle (CallThreats "1.1.1.1") []
           (GET_request live_handle "https://greipapi.com/threats" {[ "ip" := ["1.1.1.1"] ]})
           {| StatusCode := 200; RespBody := "<body>" |} "<data>").
  - vm_compute. reflexivity.
  - reflexivity.
  - split; [exact Hcode |].
    exists {[ "status" := VStr "success"; "data" := VStr "<data>" ]}, (VStr "<data>"), "<data>".
    split; [reflexivity |]. split; [vm_compute; reflexivity |].
    split; [vm_compute; reflexivity |]. split; reflexivity.
Defined.

Lemma decode_failure_witness :
  result_of (invoke (P := toy_shape_mismatch) live_handle (CallThreats "1.1.1.1")) []
  = Returned (None, Some "json: cannot unmarshal").
Proof.
  assert (Hcode : 200 <= 200 < 300) by lia.
  apply (decode_failure_drops_partial_result (P := toy_shape_mismatch) live_handle
           (CallThreats "1.1.1.1") []
           (GET_request live_handle "https://greipapi.com/threats" {[ "ip" := ["1.1.1.1"] ]})
           {| StatusCode := 200; RespBody := "<body>" |}
           {[ "status" := VStr "success"; "data" := VStr "<data>" ]}
           (VStr "<data>") "<data>" "<partial>" "json: cannot unmarshal");
    try exact Hcode; vm_compute; reflexivity.
Defined.

Lemma transport_and_body_errors_witness :
  result_of (invoke (P := toy_unreachable) live_handle (CallThreats "1.1.1.1")) []
  = Returned (None, Some "dial tcp: i/o timeout") /\
  result_of (invoke (P := toy_bad_body) live_handle (CallThreats "1.1.1.1")) []
  = Returned (None, Some "unexpected end of JSON input").
Proof.
  assert (Hcode : 200 <= 200 < 300) by lia.
  assert (Hsent1 :
    sent_by (invoke (P := toy_unreachable) live_handle (CallThreats "1.1.1.1")) []
    = [GET_request live_handle "https://greipapi.com/threats" {[ "ip" := ["1.1.1.1"] ]}])
    by (vm_compute; reflexivity).
  assert (Hsent2 :
    sent_by (invoke (P := toy_bad_body) live_handle (CallThreats "1.1.1.1")) []
    = [GET_request live_handle "https://greipapi.com/threats" {[ "ip" := ["1.1.1.1"] ]}])
    by (vm_compute; reflexivity).
  split.
  - apply (proj1 (transport_and_body_errors_verbatim (P := toy_unreachable) live_handle
                    (CallThreats "1.1.1.1") [] _ "dial tcp: i/o timeout" Hsent1)).
    reflexivity.
  - apply (proj2 (transport_and_body_errors_verbatim (P := toy_bad_body) live_handle
                    (CallThreats "1.1.1.1") [] _ "unexpected end of JSON input" Hsent2)
             {| StatusCode := 200; RespBody := "<body>" |});
      [reflexivity | exact Hcode | reflexivity].
Defined.

Lemma returned_pair_witness :
  (Some "<data>" = None /\ exists e, @None error = Some e) \/
  (@None error = None /\
   exists r req resp,
     Some "<data>" = Some r /\
     sent_by (invoke (P := toy_success) live_handle (CallThreats "1.1.1.1")) [] = [req] /\
     http_Do (Platform := toy_success) [] req = inr resp /\
     decoded_from (P := toy_success) ResponseThreats resp r).
Proof.
  apply (returned_pair_all_or_nothing (P := toy_success) live_handle
           (CallThreats "1.1.1.1") [] (Some "<data>") None).
  vm_compute. reflexivity.
Defined.

Lemma url_error_witness :
  run (getRequest (P := toy_success) broken_handle "IPLookup" ResponseLookup "" []) []
  = (Returned ("", Some "net/url: invalid control character in URL"), []) /\
  run (postRequest (P := toy_success) broken_handle "paymentFraud" ResponsePayment ""
         None) []
  = (Returned ("", Some "net/url: invalid control character in URL"), []).
Proof.
  split.
  - apply (proj1 (url_error_before_anything (P := toy_success) broken_handle "IPLookup"
                    ResponseLookup "" [] "net/url: invalid control character in URL"
                    eq_refl)).
  - apply (proj2 (url_error_before_anything (P := toy_success) broken_handle
                    "paymentFraud" ResponsePayment "" []
                    "net/url: invalid control character in URL" eq_refl)).
Defined.

Lemma authorized_witness :
  length (sent_by (invoke (P := toy_success) live_handle (CallPhone "5551234" "US")) [])
  = 1%nat /\
  Forall (fun req =>
            Header req !! "Authorization" = Some ["Bearer token"] /\
            Header req !! "Content-Type" = Some ["application/json"])
    (sent_by (invoke (P := toy_success) live_handle (CallPhone "5551234" "US")) []).
Proof.
  split; [vm_compute; reflexivity |].
  apply Forall_forall. intros req Hreq.
  exact (every_request_is_authorized (P := toy_success) live_handle
           (CallPhone "5551234" "US") [] req Hreq).
Defined.

Lemma routed_witness :
  length (sent_by (invoke (P := toy_success) live_handle (CallPayment (Some ∅))) [])
  = 1%nat /\
  Forall (fun req =>
            URL req = "https://greipapi.com/paymentFraud" /\
            Method req = "POST" /\ is_Some (Body req))
    (sent_by (invoke (P := toy_success) live_handle (CallPayment (Some ∅))) []) /\
  Forall (fun req =>
            URL req = "https://greipapi.com/validateEmail" /\
            Method req = "GET" /\ Body req = None)
    (sent_by (invoke (P := toy_success) live_handle (CallEmail "a@b.c")) []).
Proof.
  split; [vm_compute; reflexivity |].
  split; apply Forall_forall; intros req Hreq.
  - exact (every_request_is_routed (P := toy_success) live_handle
             (CallPayment (Some ∅)) [] req Hreq).
  - exact (every_request_is_routed (P := toy_success) live_handle
             (CallEmail "a@b.c") [] req Hreq).
Defined.

Example extra_payload_maps_are_ignored :
  map (fun req => (Query req !! "ip", Query req !! "asn"))
    (sent_by (getRequest (P := toy_success) live_handle "IPLookup" ResponseLookup ""
                [Some {[ "ip" := VStr "1.1.1.1" ]}; Some {[ "asn" := VStr "AS1" ]}]) [])
  = [(Some ["1.1.1.1"], None)].
Proof. vm_compute. reflexivity. Qed.

Lemma query_per_key_witness :
  length (sent_by (getRequest (P := toy_success) test_handle "IPLookup" ResponseLookup ""
                     [Some {[ "ip" := VStr "1.1.1.1" ]}]) []) = 1%nat /\
  Forall (fun req =>
            exists urlQuery,
              url_Parse (Platform := toy_success) "https://greipapi.com/IPLookup"
              = inr urlQuery /\
              forall key,
                Query req !! key =
                match first_payload test_handle (Some {[ "ip" := VStr "1.1.1.1" ]}) !! key
                with
                | Some v => Some (default [] (urlQuery !! key)
                                  ++ [Sprint_v (P := toy_success) v])%list
                | None => urlQuery !! key
                end)
    (sent_by (getRequest (P := toy_success) test_handle "IPLookup" ResponseLookup ""
                [Some {[ "ip" := VStr "1.1.1.1" ]}]) []).
Proof.
  split; [vm_compute; reflexivity |].
  apply Forall_forall. intros req Hreq.
  exact (getRequest_query_per_key (P := toy_success) test_handle "IPLookup"
           ResponseLookup "" (Some {[ "ip" := VStr "1.1.1.1" ]}) [] [] req Hreq).
Defined.

Lemma no_mode_witness :
  test live_handle = false /\
  length (sent_by (invoke (P := toy_success) live_handle (CallIBAN "DE00")) []) = 1%nat /\
  Forall (fun req =>
            (Method req = "GET" /\
             exists urlQuery,
               url_Parse (Platform := toy_success) (URL req) = inr urlQuery /\
               Query req !! "mode" = urlQuery !! "mode") \/
            (Method req = "POST" /\
             exists fields bytes,
               CallIBAN "DE00" = CallPayment (Some fields) /\
               Body req = Some bytes /\
               json_Marshal (Platform := toy_success) (VMap {[ "data" := VMap fields ]})
               = inr bytes))
    (sent_by (invoke (P := toy_success) live_handle (CallIBAN "DE00")) []).
Proof.
  split; [reflexivity |]. split; [vm_compute; reflexivity |].
  apply Forall_forall. intros req Hreq.
  exact (no_mode_outside_test_mode (P := toy_success) live_handle (CallIBAN "DE00") []
           req eq_refl Hreq).
Defined.

Lemma validated_inputs_witness :
  length (sent_by (invoke (P := toy_success) live_handle
                     (CallCountry "US" (Some ["flag"; "currency"]) ["fr"])) []) = 1%nat /\
  Forall (fun _ : Request =>
            first_missing (required (CallCountry "US" (Some ["flag"; "currency"]) ["fr"]))
            = None /\
            validated (P := toy_success)
              (CallCountry "US" (Some ["flag"; "currency"]) ["fr"]))
    (sent_by (invoke (P := toy_success) live_handle
                (CallCountry "US" (Some ["flag"; "currency"]) ["fr"])) []).
Proof.
  split; [vm_compute; reflexivity |].
  apply Forall_forall. intros req Hreq.
  exact (only_validated_inputs_reach_network (P := toy_success) live_handle
           (CallCountry "US" (Some ["flag"; "currency"]) ["fr"]) [] req Hreq).
Defined.

Example bulk_lookup_on_the_wire :
  map (fun req => (Query req !! "ips", Query req !! "params", Query req !! "lang"))
    (sent_by (BulkLookup (P := toy_success) live_handle (Some ["1.1.1.1"; "2.2.2.2"])
                (Some ["device"; "security"]) ["ja"]) [])
  = [(Some ["1.1.1.1,2.2.2.2"], Some ["device,security"], Some ["JA"])].
Proof. vm_compute. reflexivity. Qed.

Lemma postRequest_nil_payload_witness :
  run (postRequest (P := toy_success) test_handle "paymentFraud" ResponsePayment "" None) []
  = (Panicked NilMapAssignment, []).
Proof.
  exact (proj1 (postRequest_nil_payload (P := toy_success) test_handle "paymentFraud"
                  ResponsePayment "" [] ∅ eq_refl) eq_refl).
Defined.

Lemma payment_body_witness :
  length (sent_by (Payment (P := toy_success) test_handle
                     (Some {[ "mode" := VStr "live" ]})) []) = 1%nat /\
  Forall (fun req =>
            exists (m : gmap string value) bytes,
              Body req = Some bytes /\
              json_Marshal (Platform := toy_success) (VMap m) = inr bytes /\
              m !! "data" = Some (VMap {[ "mode" := VStr "live" ]}) /\
              m !! "mode" = Some (VStr "test") /\
              forall key, key <> "data" -> key <> "mode" -> m !! key = None)
    (sent_by (Payment (P := toy_success) test_handle
                (Some {[ "mode" := VStr "live" ]})) []).
Proof.
  split; [vm_compute; reflexivity |].
  apply Forall_forall. intros req Hreq.
  exact (payment_body (P := toy_success) test_handle {[ "mode" := VStr "live" ]} [] req Hreq).
Defined.

Lemma marshal_failure_witness :
  run (Payment (P := toy_unencodable) live_handle (Some ∅)) []
  = (Returned (None, Some "json: unsupported type"), []).
Proof.
  exact (marshal_failure_sends_nothing (P := toy_unencodable) live_handle ∅ [] ∅
           (Some {[ "data" := VMap ∅ ]}) "json: unsupported type"
           eq_refl eq_refl eq_refl).
Defined.
